(** Shallow embedding of homeassistant/components/recorder/db_schema.py
    (recorder schema version 33): the conversions between native events or
    states and their database rows, the dedup payload rows, the statistics
    tables with their unique index, and the recorder-run entity query. *)

From Stdlib Require Import ZArith List String Ascii Bool.
From stdpp Require Import base gmap strings list.
Import ListNotations.
Open Scope Z_scope.
#[local] Set Warnings "-register-all,-abstract-large-number".

(* ===================================================================== *)
(** * Python values, exceptions and logging                               *)
(* ===================================================================== *)

(** A UTC-aware [datetime], as microseconds since the epoch (the
    resolution of Python's datetime). *)
Definition datetime := Z.

(** JSON documents as they are decoded from and encoded to the payload
    columns. *)
Inductive json :=
| JNull
| JBool (b : bool)
| JNum (z : Z)
| JStr (s : string)
| JArr (l : list json)
| JObj (l : list (string * json)).

(** bytes *)
Definition bytes := list Byte.byte.

(** [b"{}"] *)
Definition EMPTY_OBJECT_BYTES : bytes := [Byte.x7b; Byte.x7d].

(** The exceptions raised along the modelled paths. *)
Inductive exn :=
| KeyError
| TypeError
| IndexError
| ValueError
| AttributeError
| AssertionError
| IntegrityError
| JSONDecodeError
| InvalidEntityFormatError
| InvalidStateError.

(** Records written through [_LOGGER]. *)
Inductive log_entry :=
| LogException (msg : string)
| LogWarning (msg : string).

(** Python execution: either an exception or a value, together with the
    log records written on the way. *)
Definition PyM (A : Type) : Type := (exn + A) * list log_entry.

Global Instance PyM_ret : MRet PyM := λ A a, (inr a, []).
Global Instance PyM_bind : MBind PyM := λ A B k m,
  match m with
  | (inl e, l) => (inl e, l)
  | (inr a, l) => let '(r, l') := k a in (r, l ++ l')
  end.

Definition raise {A} (e : exn) : PyM A := (inl e, []).
Definition log (e : log_entry) : PyM unit := (inr tt, [e]).

Definition py_value {A} (m : PyM A) : exn + A := fst m.
Definition py_log {A} (m : PyM A) : list log_entry := snd m.

(** Python list indexing [l[i]]: negative indices count from the end, an
    index out of range raises IndexError, [None] as index raises TypeError. *)
Definition py_list_index {A} (l : list A) (i : option Z) : PyM A :=
  match i with
  | None => raise TypeError
  | Some i =>
      let n := Z.of_nat (length l) in
      let j := if i <? 0 then i + n else i in
      if (j <? 0) || (n <=? j) then raise IndexError
      else match l !! Z.to_nat j with
           | Some a => mret a
           | None => raise IndexError
           end
  end.

(* ===================================================================== *)
(** * homeassistant.core: Context, EventOrigin, State, Event              *)
(* ===================================================================== *)

Record Context := {
  context_id_of : option string;
  user_id : option string;
  parent_id : option string;
}.

(** [EventOrigin] has the members [local] and [remote]; the annotation of
    [Event.origin] is not enforced at run time, so any other hashable value
    can reach [EVENT_ORIGIN_TO_IDX.get], represented by [OriginOther]. *)
Inductive EventOrigin :=
| EventOrigin_local
| EventOrigin_remote
| OriginOther (repr : string).

Record State := {
  state_entity_id : string;
  state_state : string;
  state_attributes : gmap string json;
  state_last_changed : datetime;
  state_last_updated : datetime;
  state_context : Context;
}.

(** Values held in [Event.data]: JSON values, or [State] objects (the
    [new_state] / [old_state] of a state_changed event). *)
Inductive dval :=
| DJson (j : json)
| DState (s : State).

(** Python's [==] on these values, as used by [SELECT DISTINCT]. *)
Fixpoint json_eq_dec (a b : json) {struct a} : {a = b} + {a <> b}.
Proof.
  decide equality.
  - apply bool_dec.
  - apply Z.eq_dec.
  - apply string_dec.
  - apply (List.list_eq_dec json_eq_dec).
  - apply List.list_eq_dec. intros [k v] [k' v'].
    destruct (string_dec k k') as [<-|Hk]; [|right; congruence].
    destruct (json_eq_dec v v') as [<-|Hv]; [left; reflexivity | right; congruence].
Defined.

Global Instance json_eq_decision : EqDecision json := json_eq_dec.

Global Instance Context_eq_decision : EqDecision Context.
Proof. solve_decision. Defined.

Global Instance State_eq_decision : EqDecision State.
Proof. solve_decision. Defined.

Global Instance dval_eq_decision : EqDecision dval.
Proof. solve_decision. Defined.

Record Event := {
  event_type : string;
  event_data : gmap string dval;
  event_origin : EventOrigin;
  event_time_fired : datetime;
  event_context : Context;
}.

(** [dict.get(key)] on the event data, read as [State | None]: an absent
    key and a JSON [null] are both [None]; a value that is not a [State]
    fails at its first attribute access with AttributeError. *)
Definition get_new_state (data : gmap string dval) : PyM (option State) :=
  match data !! "new_state"%string with
  | None | Some (DJson JNull) => mret None
  | Some (DState s) => mret (Some s)
  | Some (DJson _) => raise AttributeError
  end.

(** [event.data["entity_id"]], stored in the String column as it is: no
    type check is made, whatever value the event carries. *)
Definition getitem_entity_id (data : gmap string dval) : PyM dval :=
  match data !! "entity_id"%string with
  | None => raise KeyError
  | Some v => mret v
  end.

(** [EVENT_ORIGIN_ORDER = [EventOrigin.local, EventOrigin.remote]] *)
Definition EVENT_ORIGIN_ORDER : list EventOrigin :=
  [EventOrigin_local; EventOrigin_remote].

(** [EVENT_ORIGIN_TO_IDX.get(origin)], the dict built by enumerating
    [EVENT_ORIGIN_ORDER]. *)
Definition EVENT_ORIGIN_TO_IDX_get (o : EventOrigin) : option Z :=
  match o with
  | EventOrigin_local => Some 0
  | EventOrigin_remote => Some 1
  | OriginOther _ => None
  end.

(** [EventOrigin(value)] for the legacy [origin] string column. *)
Definition EventOrigin_of_string (s : string) : PyM EventOrigin :=
  if String.eqb s "LOCAL" then mret EventOrigin_local
  else if String.eqb s "REMOTE" then mret EventOrigin_remote
  else raise ValueError.

(** Python truthiness of an optional string column. *)
Definition truthy_str (o : option string) : option string :=
  match o with
  | Some s => if String.eqb s "" then None else Some s
  | None => None
  end.

(** [try: body except JSON_DECODE_EXCEPTIONS: handler]; the records the body
    logged before raising are kept. *)
Definition try_except_json {A} (body : PyM A) (handler : PyM A) : PyM A :=
  match body with
  | (inl JSONDecodeError, l) => let '(r, l') := handler in (r, l ++ l')
  | _ => body
  end.

(* ===================================================================== *)
(** * Entity ids (homeassistant.core)                                     *)
(* ===================================================================== *)

(** [str.lower] on one character, over the Latin-1 code points a [string]
    holds: A-Z and the letters 0xC0-0xDE (except 0xD7) move up by 32. *)
Definition ascii_lower (c : ascii) : ascii :=
  let n := nat_of_ascii c in
  if (Nat.leb 65 n && Nat.leb n 90) ||
     (Nat.leb 192 n && Nat.leb n 222 && negb (Nat.eqb n 215))
  then ascii_of_nat (n + 32) else c.

(** [str.lower] *)
Fixpoint py_lower (s : string) : string :=
  match s with
  | EmptyString => EmptyString
  | String c rest => String (ascii_lower c) (py_lower rest)
  end.

(** [s.split(".", 1)] when it has two parts: the text before and after the
    first dot; [None] when [s] has no dot. *)
Fixpoint split_dot (s : string) : option (string * string) :=
  match s with
  | EmptyString => None
  | String c rest =>
      if Ascii.eqb c "."%char then Some (EmptyString, rest)
      else match split_dot rest with
           | Some (d, o) => Some (String c d, o)
           | None => None
           end
  end.

(** The class [[\da-z_]]. *)
Definition is_slug_char (c : ascii) : bool :=
  let n := nat_of_ascii c in
  (Nat.leb 48 n && Nat.leb n 57) || (Nat.leb 97 n && Nat.leb n 122) || Nat.eqb n 95.

Fixpoint forall_str (p : ascii -> bool) (s : string) : bool :=
  match s with
  | EmptyString => true
  | String c rest => p c && forall_str p rest
  end.

Fixpoint has_double_underscore (s : string) : bool :=
  match s with
  | String c ((String c' _) as rest) =>
      (Ascii.eqb c "_"%char && Ascii.eqb c' "_"%char) || has_double_underscore rest
  | _ => false
  end.

Fixpoint last_char (s : string) : option ascii :=
  match s with
  | EmptyString => None
  | String c EmptyString => Some c
  | String _ rest => last_char rest
  end.

(** [(?!_)[\da-z_]+(?<!_)] on a whole part. *)
Definition slug_part (p : string) : bool :=
  match p with
  | EmptyString => false
  | String c _ =>
      forall_str is_slug_char p && negb (Ascii.eqb c "_"%char) &&
      negb (match last_char p with Some l => Ascii.eqb l "_"%char | None => false end)
  end.

(** The pattern without its anchors: two slug parts around one dot, and no
    [__] anywhere ([(?!.+__)] together with [(?!_)]). *)
Definition valid_entity_id_body (b : string) : bool :=
  match split_dot b with
  | Some (d, o) => slug_part d && slug_part o && negb (has_double_underscore b)
  | None => false
  end.

(** [s] without a final ["\n"], when it ends with one. *)
Fixpoint strip_final_newline (s : string) : option string :=
  match s with
  | EmptyString => None
  | String c EmptyString => if Ascii.eqb c "010"%char then Some EmptyString else None
  | String c rest =>
      match strip_final_newline rest with
      | Some b => Some (String c b)
      | None => None
      end
  end.

(** Modelled from the spec: [valid_entity_id] of homeassistant/core.py is not
    under src/; it is [VALID_ENTITY_ID.match(entity_id) is not None] with
    [VALID_ENTITY_ID] the pattern
    [^(?!.+__)(?!_)[\da-z_]+(?<!_)\.(?!_)[\da-z_]+(?<!_)$], whose [$] also
    matches before a final newline. *)
Definition valid_entity_id (s : string) : bool :=
  valid_entity_id_body s ||
  match strip_final_newline s with
  | Some b => valid_entity_id_body b
  | None => false
  end.

(* ===================================================================== *)
(** * [json_bytes_strip_null] (homeassistant.helpers.json)               *)
(* ===================================================================== *)

(** [b"\\u0000"], the escaped NUL character in JSON output. *)
Definition ESCAPED_NUL : bytes :=
  [Byte.x5c; Byte.x75; Byte.x30; Byte.x30; Byte.x30; Byte.x30].

Fixpoint bytes_prefix (p s : bytes) : bool :=
  match p, s with
  | [], _ => true
  | x :: p', y :: s' => Byte.eqb x y && bytes_prefix p' s'
  | _ :: _, [] => false
  end.

(** [p in s] on bytes. *)
Fixpoint bytes_contains (p s : bytes) : bool :=
  bytes_prefix p s ||
  match s with
  | [] => false
  | _ :: s' => bytes_contains p s'
  end.

(** [obj.split("\0", 1)[0]] *)
Fixpoint cut_at_nul (s : string) : string :=
  match s with
  | EmptyString => EmptyString
  | String c rest => if Ascii.eqb c "000"%char then EmptyString else String c (cut_at_nul rest)
  end.

(** The inner [strip_null] of [json_bytes_strip_null]: strings are cut at
    their first NUL, lists and dicts are processed item by item (dict keys
    are kept as they are), every other value is returned unchanged. *)
Fixpoint strip_nul_json (obj : json) : json :=
  match obj with
  | JStr s => JStr (cut_at_nul s)
  | JArr l => JArr (map strip_nul_json l)
  | JObj l => JObj (map (fun kv => (kv.1, strip_nul_json kv.2)) l)
  | _ => obj
  end.

(** [process_dict] on the decoded top-level dict. *)
Definition strip_nul_dict (d : gmap string json) : gmap string json :=
  strip_nul_json <$> d.

(* ===================================================================== *)
(** * The recorder schema                                                 *)
(* ===================================================================== *)

Section Recorder.

(** Epoch-seconds floats of the [TIMESTAMP_TYPE] columns, with Python's
    float [==], and the literal [0] of [ts or 0]. *)
Context {ts : Type} `{EqDecision ts} (ts_zero : ts).

(** [dt_util.utc_to_timestamp] and [dt_util.utc_from_timestamp]
    (homeassistant/util/dt.py): a datetime to epoch-seconds float and back. *)
Context (utc_to_timestamp : datetime -> ts) (utc_from_timestamp : ts -> datetime).

(** [json_loads] (orjson.loads) on a payload column holding a JSON object:
    [None] when it raises [JSONDecodeError]. *)
Context (json_loads : string -> option (gmap string json)).

(** [json_bytes] (orjson.dumps with the Home Assistant default hook), and
    the hook's encoding of a [State] found inside event data. *)
Context (json_bytes : gmap string json -> bytes) (state_as_json : State -> json).

(** [orjson.loads] on an encoding produced by [json_bytes] (a dict). *)
Context (orjson_loads : bytes -> gmap string json).

(** [recorder.const.ALL_DOMAIN_EXCLUDE_ATTRS]. *)
Context (ALL_DOMAIN_EXCLUDE_ATTRS : gset string).

Definition py_json_loads (s : option string) : PyM (gmap string json) :=
  match s with
  | None => raise JSONDecodeError  (* orjson rejects a non-str input *)
  | Some s => match json_loads s with
              | Some d => mret d
              | None => raise JSONDecodeError
              end
  end.

(** [dt_util.utc_from_timestamp(x)]; [x] is [None] raises TypeError. *)
Definition py_utc_from_timestamp (x : option ts) : PyM datetime :=
  match x with
  | None => raise TypeError
  | Some t => mret (utc_from_timestamp t)
  end.

(** ** Events *)

Record Events := {
  ev_event_id : option Z;
  ev_event_type : option string;
  ev_event_data : option string;
  ev_origin : option string;
  ev_origin_idx : option Z;
  ev_time_fired : option datetime;
  ev_time_fired_ts : option ts;
  ev_context_id : option string;
  ev_context_user_id : option string;
  ev_context_parent_id : option string;
  ev_data_id : option Z;
}.

(** [Events.from_event]; the columns not passed to the constructor
    ([event_id], [origin], [data_id]) stay [None]. *)
Definition Events_from_event (event : Event) : Events := {|
  ev_event_id := None;
  ev_event_type := Some (event_type event);
  ev_event_data := None;
  ev_origin := None;
  ev_origin_idx := EVENT_ORIGIN_TO_IDX_get (event_origin event);
  ev_time_fired := None;
  ev_time_fired_ts := Some (utc_to_timestamp (event_time_fired event));
  ev_context_id := context_id_of (event_context event);
  ev_context_user_id := user_id (event_context event);
  ev_context_parent_id := parent_id (event_context event);
  ev_data_id := None;
|}.

(** [Events.to_native]; the [Event] arguments are evaluated left to right
    inside the [try]. The event type column is [None] only for rows not
    written by [from_event]; it is then passed as [None], here [""]. *)
Definition Events_to_native (self : Events) : PyM (option Event) :=
  let context := {| context_id_of := ev_context_id self;
                    user_id := ev_context_user_id self;
                    parent_id := ev_context_parent_id self |} in
  try_except_json
    (data ← (match truthy_str (ev_event_data self) with
              | Some s => d ← py_json_loads (Some s); mret (DJson <$> d)
              | None => mret ∅
              end);
     origin ← (match truthy_str (ev_origin self) with
                | Some o => EventOrigin_of_string o
                | None => py_list_index EVENT_ORIGIN_ORDER (ev_origin_idx self)
                end);
     time_fired ← py_utc_from_timestamp (ev_time_fired_ts self);
     mret (Some {| event_type := default ""%string (ev_event_type self);
                   event_data := data;
                   event_origin := origin;
                   event_time_fired := time_fired;
                   event_context := context |}))
    (_ ← log (LogException "Error converting to event: %s");
     mret None).

(** ** EventData *)

Record EventData := {
  ed_data_id : option Z;
  ed_hash : option Z;
  ed_shared_data : option string;
}.

(** Modelled from the spec: [json_bytes_strip_null] of
    homeassistant/helpers/json.py is not under src/. Its docstring reads
    "Dump json bytes after terminating strings at the first NUL": it encodes
    the data and, only when the output holds an escaped NUL, decodes that
    output, cuts every string at its first NUL and encodes the result again.
    Keys and null values are kept. *)
Definition json_bytes_strip_null (data : gmap string json) : bytes :=
  let result := json_bytes data in
  if bytes_contains ESCAPED_NUL result
  then json_bytes (strip_nul_dict (orjson_loads result))
  else result.

Inductive SupportedDialect := MYSQL | POSTGRESQL | SQLITE.

Definition is_postgresql (dialect : option SupportedDialect) : bool :=
  match dialect with Some POSTGRESQL => true | _ => false end.

Definition dval_to_json (v : dval) : json :=
  match v with DJson j => j | DState s => state_as_json s end.

(** [EventData.shared_data_bytes_from_event] *)
Definition EventData_shared_data_bytes_from_event
    (event : Event) (dialect : option SupportedDialect) : bytes :=
  let data := dval_to_json <$> event_data event in
  if is_postgresql dialect then json_bytes_strip_null data
  else json_bytes data.

(** [EventData.to_native] *)
Definition EventData_to_native (self : EventData) : PyM (gmap string json) :=
  try_except_json
    (py_json_loads (ed_shared_data self))
    (_ ← log (LogException "Error converting row to event data: %s");
     mret ∅).

(** ** States *)

Record States := {
  st_state_id : option Z;
  st_entity_id : option dval;
  st_state : option string;
  st_attributes : option string;
  st_event_id : option Z;
  st_last_changed : option datetime;
  st_last_changed_ts : option ts;
  st_last_updated : option datetime;
  st_last_updated_ts : option ts;
  st_old_state_id : option Z;
  st_attributes_id : option Z;
  st_context_id : option string;
  st_context_user_id : option string;
  st_context_parent_id : option string;
  st_origin_idx : option Z;
}.

(** The object built by the [States(...)] call of [States.from_event],
    completed with the [state], [last_updated_ts] and [last_changed_ts]
    assignments that follow it. *)
Definition States_new (event : Event) (entity_id : dval) (state : string)
    (last_updated_ts last_changed_ts : option ts) : States := {|
  st_state_id := None;
  st_entity_id := Some entity_id;
  st_state := Some state;
  st_attributes := None;
  st_event_id := None;
  st_last_changed := None;
  st_last_changed_ts := last_changed_ts;
  st_last_updated := None;
  st_last_updated_ts := last_updated_ts;
  st_old_state_id := None;
  st_attributes_id := None;
  st_context_id := context_id_of (event_context event);
  st_context_user_id := user_id (event_context event);
  st_context_parent_id := parent_id (event_context event);
  st_origin_idx := EVENT_ORIGIN_TO_IDX_get (event_origin event);
|}.

(** [States.from_event] *)
Definition States_from_event (event : Event) : PyM States :=
  entity_id ← getitem_entity_id (event_data event);
  state ← get_new_state (event_data event);
  match state with
  | None =>
      (* None state means the state was removed from the state machine *)
      mret (States_new event entity_id ""
              (Some (utc_to_timestamp (event_time_fired event))) None)
  | Some s =>
      mret (States_new event entity_id (state_state s)
              (Some (utc_to_timestamp (state_last_updated s)))
              (if decide (state_last_updated s = state_last_changed s) then None
               else Some (utc_to_timestamp (state_last_changed s))))
  end.

(** [MAX_LENGTH_STATE_STATE] *)
Definition MAX_LENGTH_STATE_STATE : nat := 255.

(** Modelled from the spec: [State.__init__] of homeassistant/core.py is not
    under src/. It runs [state = str(state)] (a NULL state column becomes
    ["None"]); when [validate_entity_id] is set, [valid_entity_id(entity_id)]
    (a non-string raises TypeError in [re.match]) or InvalidEntityFormatError;
    [valid_state(state)] or InvalidStateError; [self.entity_id =
    entity_id.lower()] (AttributeError on a non-string); and
    [self.domain, self.object_id = split_entity_id(self.entity_id)], which
    raises ValueError when the id has no dot. The other fields keep the
    values passed ([attributes or {}], [last_updated or utcnow()] and
    [last_changed or self.last_updated] on a dict and datetimes that are
    given, [context or Context()] on a given context). *)
Definition State_new (entity_id : option dval) (state : option string)
    (attributes : gmap string json) (last_changed last_updated : datetime)
    (context : Context) (validate_entity_id : bool) : PyM State :=
  let state := match state with Some s => s | None => "None"%string end in
  _ ← (if validate_entity_id then
         match entity_id with
         | Some (DJson (JStr e)) =>
             if valid_entity_id e then mret tt else raise InvalidEntityFormatError
         | _ => raise TypeError
         end
       else mret tt);
  if Nat.ltb MAX_LENGTH_STATE_STATE (String.length state) then raise InvalidStateError
  else match entity_id with
       | Some (DJson (JStr e)) =>
           match split_dot (py_lower e) with
           | Some _ => mret {| state_entity_id := py_lower e; state_state := state;
                               state_attributes := attributes;
                               state_last_changed := last_changed;
                               state_last_updated := last_updated;
                               state_context := context |}
           | None => raise ValueError
           end
       | _ => raise AttributeError
       end.

(** [x or 0] on a timestamp column (a [0.0] read as [0] is the same
    instant). *)
Definition ts_or_zero (x : option ts) : ts :=
  match x with Some t => t | None => ts_zero end.

(** [self.last_changed_ts is None or self.last_changed_ts == self.last_updated_ts] *)
Definition last_changed_collapses (self : States) : bool :=
  match st_last_changed_ts self, st_last_updated_ts self with
  | None, _ => true
  | Some c, Some u => bool_decide (c = u)
  | Some _, None => false
  end.

(** [States.to_native]; only the inline [attributes] column is parsed. *)
Definition States_to_native (self : States) (validate_entity_id : bool)
    : PyM (option State) :=
  let context := {| context_id_of := st_context_id self;
                    user_id := st_context_user_id self;
                    parent_id := st_context_parent_id self |} in
  attrs ← try_except_json
            (match truthy_str (st_attributes self) with
             | Some s => a ← py_json_loads (Some s); mret (Some a)
             | None => mret (Some ∅)
             end)
            (_ ← log (LogException "Error converting row to state: %s");
             mret None);
  match attrs with
  | None => mret None
  | Some attrs =>
      let '(last_changed, last_updated) :=
        if last_changed_collapses self then
          let t := utc_from_timestamp (ts_or_zero (st_last_updated_ts self)) in (t, t)
        else (utc_from_timestamp (ts_or_zero (st_last_changed_ts self)),
              utc_from_timestamp (ts_or_zero (st_last_updated_ts self))) in
      st ← State_new (st_entity_id self) (st_state self) attrs
             last_changed last_updated context validate_entity_id;
      mret (Some st)
  end.

(** The same row with another [attributes_id] (the dedup reference). *)
Definition States_set_attributes_id (attributes_id : option Z) (self : States) : States := {|
  st_state_id := st_state_id self;
  st_entity_id := st_entity_id self;
  st_state := st_state self;
  st_attributes := st_attributes self;
  st_event_id := st_event_id self;
  st_last_changed := st_last_changed self;
  st_last_changed_ts := st_last_changed_ts self;
  st_last_updated := st_last_updated self;
  st_last_updated_ts := st_last_updated_ts self;
  st_old_state_id := st_old_state_id self;
  st_attributes_id := attributes_id;
  st_context_id := st_context_id self;
  st_context_user_id := st_context_user_id self;
  st_context_parent_id := st_context_parent_id self;
  st_origin_idx := st_origin_idx self;
|}.

(** ** StateAttributes *)

Record StateAttributes := {
  sa_attributes_id : option Z;
  sa_hash : option Z;
  sa_shared_attrs : option string;
}.

(** [MAX_STATE_ATTRS_BYTES] *)
Definition MAX_STATE_ATTRS_BYTES : nat := 16384.

(** [split_entity_id(entity_id)[0]] with [split_entity_id] being
    [entity_id.split(".", 1)]: the text before the first dot. *)
Fixpoint split_entity_id_domain (entity_id : string) : string :=
  match entity_id with
  | EmptyString => EmptyString
  | String c rest =>
      if Ascii.eqb c "."%char then EmptyString
      else String c (split_entity_id_domain rest)
  end.

(** The exclusion set of [shared_attrs_bytes_from_event]. *)
Definition exclude_attrs_for (exclude_attrs_by_domain : gmap string (gset string))
    (entity_id : string) : gset string :=
  default ∅ (exclude_attrs_by_domain !! split_entity_id_domain entity_id)
    ∪ ALL_DOMAIN_EXCLUDE_ATTRS.

(** The dict comprehension [{k: v for k, v in attributes.items() if k not in
    exclude_attrs}]. *)
Definition without_excluded (exclude_attrs : gset string) (attrs : gmap string json)
    : gmap string json :=
  filter (fun kv : string * json => kv.1 ∉ exclude_attrs) attrs.

Definition attrs_encoder (dialect : option SupportedDialect)
    : gmap string json -> bytes :=
  if is_postgresql dialect then json_bytes_strip_null else json_bytes.

(** [StateAttributes.shared_attrs_bytes_from_event] *)
Definition StateAttributes_shared_attrs_bytes_from_event (event : Event)
    (exclude_attrs_by_domain : gmap string (gset string))
    (dialect : option SupportedDialect) : PyM bytes :=
  state ← get_new_state (event_data event);
  match state with
  | None => mret EMPTY_OBJECT_BYTES
  | Some s =>
      let exclude_attrs := exclude_attrs_for exclude_attrs_by_domain (state_entity_id s) in
      let bytes_result :=
        attrs_encoder dialect (without_excluded exclude_attrs (state_attributes s)) in
      if Nat.ltb MAX_STATE_ATTRS_BYTES (length bytes_result) then
        _ ← log (LogWarning "State attributes for %s exceed maximum size of %s bytes. This can cause database performance issues; Attributes will not be stored");
        mret EMPTY_OBJECT_BYTES
      else mret bytes_result
  end.

(** [StateAttributes.to_native] *)
Definition StateAttributes_to_native (self : StateAttributes) : PyM (gmap string json) :=
  try_except_json
    (py_json_loads (sa_shared_attrs self))
    (_ ← log (LogException "Error converting row to state attributes: %s");
     mret ∅).

End Recorder.

(* ===================================================================== *)
(** * Statistics tables and their indices                                 *)
(* ===================================================================== *)

Section Statistics.

(** DOUBLE_TYPE columns. *)
Context {double : Type}.

(** [StatisticData] (recorder/models.py): the keyword arguments of
    [from_stats]. *)
Record StatisticData := {
  sd_start : option datetime;
  sd_mean : option double;
  sd_min : option double;
  sd_max : option double;
  sd_last_reset : option datetime;
  sd_state : option double;
  sd_sum : option double;
}.

(** A row of [statistics] or [statistics_short_term] ([StatisticsBase]). *)
Record StatisticsRow := {
  stat_id : option Z;
  stat_created : option datetime;
  stat_metadata_id : option Z;
  stat_start : option datetime;
  stat_mean : option double;
  stat_min : option double;
  stat_max : option double;
  stat_last_reset : option datetime;
  stat_state : option double;
  stat_sum : option double;
}.

(** [StatisticsBase.from_stats] *)
Definition from_stats (metadata_id : Z) (stats : StatisticData) : StatisticsRow := {|
  stat_id := None;
  stat_created := None;
  stat_metadata_id := Some metadata_id;
  stat_start := sd_start stats;
  stat_mean := sd_mean stats;
  stat_min := sd_min stats;
  stat_max := sd_max stats;
  stat_last_reset := sd_last_reset stats;
  stat_state := sd_state stats;
  stat_sum := sd_sum stats;
|}.

End Statistics.

(** Values of the indexed key columns. *)
Inductive sql_key := KInt (z : Z) | KTime (t : datetime).

Global Instance sql_key_eq_dec : EqDecision sql_key.
Proof. solve_decision. Defined.

(** The value of an indexed column of a statistics row ([NULL] as [None]). *)
Definition stat_column {double} (r : @StatisticsRow double) (c : string) : option sql_key :=
  if String.eqb c "metadata_id" then KInt <$> stat_metadata_id r
  else if String.eqb c "start" then KTime <$> stat_start r
  else None.

(** [sqlalchemy.Index(name, *columns, unique=...)] *)
Record Index := {
  index_name : string;
  index_columns : list string;
  index_unique : bool;
}.

Record StatisticsTable := {
  tablename : string;
  duration_seconds : Z;
  table_indexes : list Index;
}.

(** The indices of a statistics table: the ones of its [__table_args__]
    and the [index=True] ones of [StatisticsBase.metadata_id] and
    [StatisticsBase.start]. *)
Definition statistics_indexes (tbl : string) (table_args : list Index) : list Index :=
  table_args ++
  [{| index_name := "ix_" ++ tbl ++ "_metadata_id"; index_columns := ["metadata_id"];
      index_unique := false |};
   {| index_name := "ix_" ++ tbl ++ "_start"; index_columns := ["start"];
      index_unique := false |}].

(** [Statistics]: duration [timedelta(hours=1)]. *)
Definition Statistics : StatisticsTable := {|
  tablename := "statistics";
  duration_seconds := 3600;
  table_indexes := statistics_indexes "statistics"
    [{| index_name := "ix_statistics_statistic_id_start";
        index_columns := ["metadata_id"; "start"]; index_unique := true |}];
|}.

(** [StatisticsShortTerm]: duration [timedelta(minutes=5)]. *)
Definition StatisticsShortTerm : StatisticsTable := {|
  tablename := "statistics_short_term";
  duration_seconds := 300;
  table_indexes := statistics_indexes "statistics_short_term"
    [{| index_name := "ix_statistics_short_term_statistic_id_start";
        index_columns := ["metadata_id"; "start"]; index_unique := true |}];
|}.

(** Two rows collide on the columns of a unique index when every column is
    non-NULL in both and equal (SQL treats NULLs as distinct). *)
Definition unique_collision {double} (cols : list string)
    (r r' : @StatisticsRow double) : bool :=
  forallb (fun c => match stat_column r c, stat_column r' c with
                    | Some a, Some b => bool_decide (a = b)
                    | _, _ => false
                    end) cols.

(** INSERT of a row into a table enforcing its unique indices: a collision
    raises IntegrityError and leaves the table as it was. *)
Definition insert_row {double} (tbl : StatisticsTable)
    (rows : list (@StatisticsRow double)) (r : @StatisticsRow double)
    : exn + list (@StatisticsRow double) :=
  if existsb (fun ix => index_unique ix &&
                        existsb (unique_collision (index_columns ix) r) rows)
             (table_indexes tbl)
  then inl IntegrityError
  else inr (rows ++ [r]).

(** The contents a table can reach from empty through successful inserts. *)
Inductive reachable {double} (tbl : StatisticsTable) : list (@StatisticsRow double) -> Prop :=
| reachable_empty : reachable tbl []
| reachable_insert rows r rows' :
    reachable tbl rows -> insert_row tbl rows r = inr rows' -> reachable tbl rows'.

(** The (metadata reference, bucket start) key of a row. *)
Definition stat_key {double} (r : @StatisticsRow double) : option (Z * datetime) :=
  match stat_metadata_id r, stat_start r with
  | Some m, Some s => Some (m, s)
  | _, _ => None
  end.

(* ===================================================================== *)
(** * Recorder runs                                                       *)
(* ===================================================================== *)

Record RecorderRuns := {
  rr_run_id : option Z;
  rr_start : option datetime;
  rr_end : option datetime;
  rr_closed_incorrect : option bool;
  rr_created : option datetime;
}.

(** SQL comparisons: a comparison with NULL is not true. *)
Definition sql_ge (a b : option datetime) : bool :=
  match a, b with Some x, Some y => y <=? x | _, _ => false end.
Definition sql_lt (a b : option datetime) : bool :=
  match a, b with Some x, Some y => x <? y | _, _ => false end.

(** [RecorderRuns.entity_ids]: [session] is [Session.object_session(self)]
    with the rows of the [states] table it sees; the query compares the
    [States.last_updated] column. The result of [SELECT DISTINCT] is
    modelled in first-occurrence order. *)
Definition RecorderRuns_entity_ids {ts} (self : RecorderRuns)
    (session : option (list (@States ts))) (point_in_time : option datetime)
    : PyM (list (option dval)) :=
  match session with
  | None => raise AssertionError
  | Some rows =>
      let lower r := sql_ge (st_last_updated r) (rr_start self) in
      let upper r :=
        match point_in_time with
        | Some p => sql_lt (st_last_updated r) (Some p)
        | None => match rr_end self with
                  | Some e => sql_lt (st_last_updated r) (Some e)
                  | None => true
                  end
        end in
      mret (remove_dups (st_entity_id <$> filter (fun r => lower r && upper r) rows))
  end.

(* ===================================================================== *)
(** * Payload hashes                                                      *)
(* ===================================================================== *)

(** Modelled from the spec: [fnv1a_32] of the fnvhash package is not part of
    this source; the spec names it the 32-bit FNV-1a hash of the bytes: from
    the offset basis 0x811c9dc5, each byte is xored in and the value is
    multiplied by the prime 0x01000193 modulo 2^32. *)
Definition FNV1_32_INIT : Z := 2166136261.
Definition FNV_32_PRIME : Z := 16777619.

Fixpoint fnv1a_32_from (hval : Z) (data : bytes) : Z :=
  match data with
  | [] => hval
  | b :: rest =>
      fnv1a_32_from ((Z.lxor hval (Z.of_nat (Byte.to_nat b)) * FNV_32_PRIME)
                       mod 2 ^ 32) rest
  end.

Definition fnv1a_32 (data : bytes) : Z := fnv1a_32_from FNV1_32_INIT data.

(** [EventData.hash_shared_data_bytes] *)
Definition EventData_hash_shared_data_bytes (shared_data_bytes : bytes) : Z :=
  fnv1a_32 shared_data_bytes.

(** [StateAttributes.hash_shared_attrs_bytes] *)
Definition StateAttributes_hash_shared_attrs_bytes (shared_attrs_bytes : bytes) : Z :=
  fnv1a_32 shared_attrs_bytes.

(* ===================================================================== *)
(** * Sample inputs                                                       *)
(* ===================================================================== *)

(** 2024-01-01T00:00:00Z *)
Definition sample_time : datetime := 1704067200000000.

Definition sample_context : Context := {|
  context_id_of := Some "01HK000000000000000000000"%string;
  user_id := None;
  parent_id := None;
|}.

Definition sample_state : State := {|
  state_entity_id := "light.x";
  state_state := "on";
  state_attributes := <["brightness"%string := JNum 100]> ∅;
  state_last_changed := sample_time;
  state_last_updated := sample_time;
  state_context := sample_context;
|}.

(** A state_changed event for [light.x] with the given [new_state]. *)
Definition sample_event (origin : EventOrigin) (new_state : dval) : Event := {|
  event_type := "state_changed";
  event_data := <["entity_id"%string := DJson (JStr "light.x")]>
                  (<["new_state"%string := new_state]> ∅);
  event_origin := origin;
  event_time_fired := sample_time;
  event_context := sample_context;
|}.

(** A decoder that accepts only the document [{}]. *)
Definition sample_json_loads (s : string) : option (gmap string json) :=
  if String.eqb s "{}" then Some ∅ else None.

(** An encoder whose output has [n] bytes. *)
Definition sample_json_bytes (n : nat) (d : gmap string json) : bytes :=
  repeat Byte.x20 n.

(** An encoder writing the bytes of the dict's keys one after the other:
    dicts with different key sets encode differently. *)
Definition sample_key_bytes (d : gmap string json) : bytes :=
  List.concat (map (fun kv : string * json => list_byte_of_string kv.1) (map_to_list d)).

(** The sample state with a null-valued attribute and an attribute of the
    global exclusion set used below. *)
Definition sample_null_state : State := {|
  state_entity_id := "light.x";
  state_state := "on";
  state_attributes := <["brightness"%string := JNum 100]>
                        (<["friendly_name"%string := JNull]>
                           (<["restored"%string := JBool true]> ∅));
  state_last_changed := sample_time;
  state_last_updated := sample_time;
  state_context := sample_context;
|}.

(** Its attributes without the excluded key. *)
Definition sample_null_kept : gmap string json :=
  <["brightness"%string := JNum 100]> (<["friendly_name"%string := JNull]> ∅).

(** A legacy-free state row (attributes only through [attributes_id]) with
    the given timestamps, as floats modelled by [Z]. *)
Definition sample_states_row (entity_id : string) (last_updated : option datetime)
    (attributes : option string) (last_updated_ts last_changed_ts : option Z)
    : @States Z := {|
  st_state_id := Some 1;
  st_entity_id := Some (DJson (JStr entity_id));
  st_state := Some "on"%string;
  st_attributes := attributes;
  st_event_id := None;
  st_last_changed := None;
  st_last_changed_ts := last_changed_ts;
  st_last_updated := last_updated;
  st_last_updated_ts := last_updated_ts;
  st_old_state_id := None;
  st_attributes_id := Some 1;
  st_context_id := None;
  st_context_user_id := None;
  st_context_parent_id := None;
  st_origin_idx := Some 0;
|}.

Definition sample_attributes_row (shared_attrs : string) : StateAttributes := {|
  sa_attributes_id := Some 1;
  sa_hash := None;
  sa_shared_attrs := Some shared_attrs;
|}.

Definition sample_statistics_row (metadata_id : Z) (start : datetime) : @StatisticsRow Z :=
  from_stats metadata_id {| sd_start := Some start; sd_mean := Some 3; sd_min := None;
                            sd_max := None; sd_last_reset := None; sd_state := None;
                            sd_sum := None |}.

(** An [events] row with the given payload, origin and time columns, as
    floats modelled by [Z]. *)
Definition sample_events_row (event_data origin : option string) (origin_idx : option Z)
    (time_fired : option datetime) (time_fired_ts : option Z) : @Events Z := {|
  ev_event_id := Some 1;
  ev_event_type := Some "state_changed"%string;
  ev_event_data := event_data;
  ev_origin := origin;
  ev_origin_idx := origin_idx;
  ev_time_fired := time_fired;
  ev_time_fired_ts := time_fired_ts;
  ev_context_id := None;
  ev_context_user_id := None;
  ev_context_parent_id := None;
  ev_data_id := None;
|}.

Definition sample_recorder_run (start end_ : option datetime) : RecorderRuns := {|
  rr_run_id := Some 1;
  rr_start := start;
  rr_end := end_;
  rr_closed_incorrect := Some false;
  rr_created := start;
|}.

(* ===================================================================== *)
(** * Properties                                                          *)
(* ===================================================================== *)

Lemma without_excluded_lookup (exclude : gset string) (attrs : gmap string json) k :
  without_excluded exclude attrs !! k =
    if decide (k ∈ exclude) then None else attrs !! k.
Proof.
  unfold without_excluded. rewrite map_lookup_filter.
  destruct (attrs !! k) as [v|]; simpl;
    destruct (decide (k ∈ exclude)); simpl; try done.
  - rewrite option_guard_False; [done|]. simpl. tauto.
  - rewrite option_guard_True; done.
Qed.

(** ** Entity ids *)

Lemma forall_str_app (p : ascii -> bool) (a b : string) :
  forall_str p (a ++ b) = forall_str p a && forall_str p b.
Proof.
  induction a as [|c a IH]; simpl; [reflexivity|].
  rewrite IH. apply andb_assoc.
Qed.

Lemma forall_str_impl (p q : ascii -> bool) (s : string) :
  (forall c, p c = true -> q c = true) -> forall_str p s = true -> forall_str q s = true.
Proof.
  intros Hpq. induction s as [|c s IH]; simpl; [done|].
  intros Hs. apply andb_true_iff in Hs as [Hc Hs].
  rewrite (Hpq c Hc), (IH Hs). reflexivity.
Qed.

Lemma split_dot_app (s d o : string) :
  split_dot s = Some (d, o) -> s = (d ++ String "." o)%string.
Proof.
  revert d o. induction s as [|c s IH]; intros d o; simpl; [discriminate|].
  destruct (Ascii.eqb c ".") eqn:Hc.
  - intros [= <- <-]. apply Ascii.eqb_eq in Hc. subst. reflexivity.
  - destruct (split_dot s) as [[d' o']|] eqn:Hs; [|discriminate].
    intros [= <- <-]. rewrite (IH d' o' eq_refl). reflexivity.
Qed.

Lemma split_dot_app_r (s t d o : string) :
  split_dot s = Some (d, o) -> split_dot (s ++ t) = Some (d, (o ++ t)%string).
Proof.
  revert d o. induction s as [|c s IH]; intros d o; simpl; [discriminate|].
  destruct (Ascii.eqb c "."); [intros [= <- <-]; reflexivity|].
  destruct (split_dot s) as [[d' o']|] eqn:Hs; [|discriminate].
  intros [= <- <-]. rewrite (IH d' o' eq_refl). reflexivity.
Qed.

Lemma strip_final_newline_app (s b : string) :
  strip_final_newline s = Some b -> s = (b ++ String "010" EmptyString)%string.
Proof.
  revert b. induction s as [|c s IH]; intros b; [discriminate|].
  destruct s as [|c' s'].
  - simpl. destruct (Ascii.eqb c "010") eqn:Hc; [|discriminate].
    intros [= <-]. apply Ascii.eqb_eq in Hc. subst. reflexivity.
  - change (strip_final_newline (String c (String c' s'))) with
      (match strip_final_newline (String c' s') with
       | Some b => Some (String c b) | None => None end).
    destruct (strip_final_newline (String c' s')) as [b'|] eqn:Hs; [|discriminate].
    intros [= <-]. rewrite (IH b' eq_refl). reflexivity.
Qed.

(** The characters an entity id accepted by [valid_entity_id] is made of. *)
Definition id_char (c : ascii) : bool :=
  is_slug_char c || Ascii.eqb c "."%char || Ascii.eqb c "010"%char.

Lemma ascii_lower_id_char (c : ascii) : id_char c = true -> ascii_lower c = c.
Proof.
  destruct c as [[] [] [] [] [] [] [] []]; intros H; vm_compute in H |- *;
    congruence.
Qed.

Lemma py_lower_id (s : string) : forall_str id_char s = true -> py_lower s = s.
Proof.
  induction s as [|c s IH]; simpl; [reflexivity|].
  intros Hs. apply andb_true_iff in Hs as [Hc Hs].
  rewrite ascii_lower_id_char, IH by assumption. reflexivity.
Qed.

Lemma slug_part_chars (p : string) : slug_part p = true -> forall_str is_slug_char p = true.
Proof.
  unfold slug_part. destruct p as [|c p']; [discriminate|].
  intros H. apply andb_true_iff in H as [H _]. apply andb_true_iff in H as [H _].
  exact H.
Qed.

Lemma valid_entity_id_body_spec (b : string) :
  valid_entity_id_body b = true ->
  forall_str id_char b = true /\ exists d o, split_dot b = Some (d, o).
Proof.
  unfold valid_entity_id_body. destruct (split_dot b) as [[d o]|] eqn:Hs; [|discriminate].
  intros H. apply andb_true_iff in H as [H _]. apply andb_true_iff in H as [Hd Ho].
  split; [|eauto].
  assert (Hslug : forall c, is_slug_char c = true -> id_char c = true).
  { intros c Hc. unfold id_char. rewrite Hc. reflexivity. }
  rewrite (split_dot_app _ _ _ Hs), forall_str_app. simpl.
  rewrite (forall_str_impl _ _ d Hslug (slug_part_chars d Hd)),
    (forall_str_impl _ _ o Hslug (slug_part_chars o Ho)).
  reflexivity.
Qed.

(** An entity id accepted by [valid_entity_id] is already lower case and
    contains a dot. *)
Lemma valid_entity_id_lower_split (s : string) :
  valid_entity_id s = true -> py_lower s = s /\ exists d o, split_dot s = Some (d, o).
Proof.
  unfold valid_entity_id. intros H. apply orb_true_iff in H as [H|H].
  - destruct (valid_entity_id_body_spec s H) as [Hc Hsp].
    split; [apply py_lower_id; exact Hc | exact Hsp].
  - destruct (strip_final_newline s) as [b|] eqn:Hb; [|discriminate].
    apply strip_final_newline_app in Hb as ->.
    destruct (valid_entity_id_body_spec b H) as [Hc [d [o Hsp]]]. split.
    + apply py_lower_id. rewrite forall_str_app, Hc. reflexivity.
    + exists d, (o ++ String "010" EmptyString)%string. apply split_dot_app_r. exact Hsp.
Qed.

(** ** [State(...)] *)

(** A valid entity id string and a state of at most 255 characters build a
    state holding exactly the values passed, whatever [validate_entity_id]. *)
Lemma State_new_valid (e s : string) (attrs : gmap string json) (lc lu : datetime)
    (ctx : Context) (validate : bool) :
  valid_entity_id e = true -> (String.length s <= MAX_LENGTH_STATE_STATE)%nat ->
  State_new (Some (DJson (JStr e))) (Some s) attrs lc lu ctx validate =
    (inr {| state_entity_id := e; state_state := s; state_attributes := attrs;
            state_last_changed := lc; state_last_updated := lu;
            state_context := ctx |}, []).
Proof.
  intros Hv Hlen. destruct (valid_entity_id_lower_split e Hv) as [Hlow [d [o Hsplit]]].
  apply Nat.ltb_ge in Hlen. unfold State_new.
  destruct validate; cbn -[valid_entity_id py_lower split_dot Nat.ltb];
    rewrite ?Hv; cbn -[valid_entity_id py_lower split_dot Nat.ltb];
    rewrite Hlen, Hlow, Hsplit; reflexivity.
Qed.

(** Whenever [State(...)] succeeds, the attributes, times and context are the
    ones passed. *)
Lemma State_new_fields (eid : option dval) (s : option string) (attrs : gmap string json)
    (lc lu : datetime) (ctx : Context) (validate : bool) (st : State) (l : list log_entry) :
  State_new eid s attrs lc lu ctx validate = (inr st, l) ->
  state_attributes st = attrs /\ state_last_changed st = lc /\
  state_last_updated st = lu /\ state_context st = ctx.
Proof.
  unfold State_new. intros H.
  repeat (cbn -[valid_entity_id py_lower split_dot Nat.ltb] in H;
          case_match);
    cbn [mbind mret PyM_bind PyM_ret app] in H; simplify_eq; repeat split.
Qed.

Section Properties.

Context {ts : Type} `{EqDecision ts} (ts_zero : ts).
Context (utc_to_timestamp : datetime -> ts) (utc_from_timestamp : ts -> datetime).
Context (json_loads : string -> option (gmap string json)).
Context (json_bytes : gmap string json -> bytes) (state_as_json : State -> json).
Context (orjson_loads : bytes -> gmap string json).
Context (ALL_DOMAIN_EXCLUDE_ATTRS : gset string).

(** ** Events round trip *)

(** C1: for an event whose origin is local or remote, [Events.from_event]
    followed by [Events.to_native] gives back, without raising or logging,
    an event with the same type, origin and context triple, fired at the
    float round trip [utc_from_timestamp (utc_to_timestamp t)] of the
    original fired-at [t]. *)
Theorem events_from_event_to_native_roundtrip (E : Event) :
  event_origin E = EventOrigin_local \/ event_origin E = EventOrigin_remote ->
  exists E',
    Events_to_native utc_from_timestamp json_loads
      (Events_from_event utc_to_timestamp E) = (inr (Some E'), []) /\
    event_type E' = event_type E /\
    event_origin E' = event_origin E /\
    context_id_of (event_context E') = context_id_of (event_context E) /\
    user_id (event_context E') = user_id (event_context E) /\
    parent_id (event_context E') = parent_id (event_context E) /\
    event_time_fired E' = utc_from_timestamp (utc_to_timestamp (event_time_fired E)).
Proof.
  intros Horigin.
  destruct E as [ty data origin fired [cid uid pid]]; simpl in *.
  destruct Horigin as [-> | ->]; eexists; split; try reflexivity;
    simpl; repeat split.
Qed.

(** ** States: last_changed compression *)

(** C2: for a state_changed event with a non-null new state [s],
    [States.from_event] succeeds and stores [last_changed_ts] as null
    exactly when [s.last_changed = s.last_updated], and otherwise as the
    epoch seconds of [s.last_changed]; [States.to_native] rebuilds
    [last_changed] equal to [last_updated] on every row whose
    [last_changed_ts] is null or equal to [last_updated_ts]. *)
Theorem states_last_changed_compression (E : Event) (eid : string) (s : State) :
  event_data E !! "entity_id"%string = Some (DJson (JStr eid)) ->
  event_data E !! "new_state"%string = Some (DState s) ->
  (exists row,
     States_from_event utc_to_timestamp E = (inr row, []) /\
     (st_last_changed_ts row = None <-> state_last_changed s = state_last_updated s) /\
     (state_last_changed s <> state_last_updated s ->
      st_last_changed_ts row = Some (utc_to_timestamp (state_last_changed s)))) /\
  (forall (row : @States ts) validate st,
     (st_last_changed_ts row = None \/
      exists u, st_last_changed_ts row = Some u /\ st_last_updated_ts row = Some u) ->
     py_value (States_to_native ts_zero utc_from_timestamp json_loads
                 row validate) = inr (Some st) ->
     state_last_changed st = state_last_updated st).
Proof.
  intros Heid Hnew. split.
  - unfold States_from_event, getitem_entity_id, get_new_state.
    rewrite Heid, Hnew. simpl.
    eexists; split; [reflexivity|]. simpl.
    destruct (decide (state_last_updated s = state_last_changed s)) as [Heq|Hne];
      simpl; split; try split; intros; try congruence.
  - intros row validate st Hnull Hres.
    assert (Hc : last_changed_collapses row = true).
    { unfold last_changed_collapses.
      destruct Hnull as [-> | (u & -> & ->)]; [reflexivity|].
      by rewrite bool_decide_eq_true_2. }
    unfold States_to_native in Hres. rewrite Hc in Hres. revert Hres.
    destruct (try_except_json _ _) as [[err|[attrs|]] l0];
      cbn -[State_new]; try discriminate.
    destruct (State_new _ _ _ _ _ _ _) as [[err|st'] l] eqn:Hsn; cbn; try discriminate.
    intros [= <-]. apply State_new_fields in Hsn as (_ & -> & -> & _). reflexivity.
Qed.

(** ** Removal events *)

(** C3: for a state_changed event whose [new_state] is null (absent or
    [None]), [States.from_event] succeeds with state [""], [last_updated_ts]
    the epoch seconds of the event's fired-at and [last_changed_ts] null,
    and [shared_attrs_bytes_from_event] returns [b"{}"] for every exclusion
    table and dialect. *)
Theorem states_removal_sentinel (E : Event) (eid : string) :
  event_data E !! "entity_id"%string = Some (DJson (JStr eid)) ->
  (event_data E !! "new_state"%string = None \/
   event_data E !! "new_state"%string = Some (DJson JNull)) ->
  (exists row,
     States_from_event utc_to_timestamp E = (inr row, []) /\
     st_state row = Some ""%string /\
     st_last_updated_ts row = Some (utc_to_timestamp (event_time_fired E)) /\
     st_last_changed_ts row = None) /\
  (forall exclude_attrs_by_domain dialect,
     StateAttributes_shared_attrs_bytes_from_event json_bytes orjson_loads ALL_DOMAIN_EXCLUDE_ATTRS
       E exclude_attrs_by_domain dialect = (inr EMPTY_OBJECT_BYTES, [])).
Proof.
  intros Heid Hnew.
  assert (Hget : get_new_state (event_data E) = (inr None, [])).
  { unfold get_new_state. by destruct Hnew as [-> | ->]. }
  split.
  - unfold States_from_event, getitem_entity_id. rewrite Heid, Hget. simpl.
    eexists; repeat split.
  - intros excl dialect. unfold StateAttributes_shared_attrs_bytes_from_event.
    rewrite Hget. reflexivity.
Qed.

(** ** Attribute size ceiling *)

(** C4: when the encoding of the attributes kept after exclusion is longer
    than [MAX_STATE_ATTRS_BYTES] (16384), [shared_attrs_bytes_from_event]
    returns [b"{}"], writes exactly one warning and raises nothing. *)
Theorem shared_attrs_oversized_replaced (E : Event) (s : State)
    (exclude_attrs_by_domain : gmap string (gset string))
    (dialect : option SupportedDialect) :
  event_data E !! "new_state"%string = Some (DState s) ->
  (MAX_STATE_ATTRS_BYTES <
    length (attrs_encoder json_bytes orjson_loads dialect
              (without_excluded
                 (exclude_attrs_for ALL_DOMAIN_EXCLUDE_ATTRS exclude_attrs_by_domain
                    (state_entity_id s))
                 (state_attributes s))))%nat ->
  exists msg,
    StateAttributes_shared_attrs_bytes_from_event json_bytes orjson_loads ALL_DOMAIN_EXCLUDE_ATTRS
      E exclude_attrs_by_domain dialect = (inr EMPTY_OBJECT_BYTES, [LogWarning msg]).
Proof.
  intros Hnew Hlen.
  unfold StateAttributes_shared_attrs_bytes_from_event, get_new_state.
  rewrite Hnew. simpl.
  apply Nat.ltb_lt in Hlen. rewrite Hlen.
  eexists. reflexivity.
Qed.

(** ** Canonical attribute encoding *)

(** C9 (amended): for a state_changed event with a non-null new state, the
    attributes kept are the state's attributes without every key of the
    domain exclusion set and of the global one, and null-valued keys are kept
    for every dialect. On PostgreSQL only, when the plain encoding of the
    kept attributes contains an escaped NUL, the bytes stored encode the
    decoded attributes with every string cut at its first NUL (keys
    unchanged); otherwise they are the plain encoding ([b"{}"] above the
    ceiling in both cases). Event data is encoded with the same dialect
    rule. *)
Theorem canonical_attribute_encoding (E : Event) (s : State)
    (exclude_attrs_by_domain : gmap string (gset string))
    (dialect : option SupportedDialect) :
  event_data E !! "new_state"%string = Some (DState s) ->
  let exclude := exclude_attrs_for ALL_DOMAIN_EXCLUDE_ATTRS exclude_attrs_by_domain
                   (state_entity_id s) in
  let kept := without_excluded exclude (state_attributes s) in
  let cut := is_postgresql dialect && bytes_contains ESCAPED_NUL (json_bytes kept) in
  let payload := if cut then strip_nul_dict (orjson_loads (json_bytes kept)) else kept in
  py_value (StateAttributes_shared_attrs_bytes_from_event json_bytes orjson_loads
              ALL_DOMAIN_EXCLUDE_ATTRS E exclude_attrs_by_domain dialect) =
    inr (if Nat.ltb MAX_STATE_ATTRS_BYTES (length (json_bytes payload))
         then EMPTY_OBJECT_BYTES else json_bytes payload) /\
  (forall k,
     k ∈ default ∅ (exclude_attrs_by_domain !! split_entity_id_domain (state_entity_id s)) \/
     k ∈ ALL_DOMAIN_EXCLUDE_ATTRS ->
     kept !! k = None) /\
  (forall k v,
     state_attributes s !! k = Some v -> k ∉ exclude -> kept !! k = Some v) /\
  (is_postgresql dialect = false -> payload = kept) /\
  (orjson_loads (json_bytes kept) = kept ->
     forall k, payload !! k = if cut then strip_nul_json <$> kept !! k else kept !! k) /\
  (orjson_loads (json_bytes kept) = kept ->
     forall k, kept !! k = Some JNull -> payload !! k = Some JNull) /\
  (forall E' : Event,
     let data := dval_to_json state_as_json <$> event_data E' in
     EventData_shared_data_bytes_from_event json_bytes state_as_json orjson_loads E' dialect =
       if is_postgresql dialect && bytes_contains ESCAPED_NUL (json_bytes data)
       then json_bytes (strip_nul_dict (orjson_loads (json_bytes data)))
       else json_bytes data).
Proof using json_bytes state_as_json orjson_loads ALL_DOMAIN_EXCLUDE_ATTRS.
  intros Hnew exclude kept cut payload.
  split; [|split; [|split; [|split; [|split; [|split]]]]].
  - unfold StateAttributes_shared_attrs_bytes_from_event, get_new_state.
    rewrite Hnew. simpl.
    unfold payload, cut, kept, exclude, attrs_encoder, json_bytes_strip_null.
    destruct (is_postgresql dialect); simpl;
      [destruct (bytes_contains _ _)|]; destruct (Nat.ltb _ _); reflexivity.
  - intros k Hk.
    assert (Hin : k ∈ exclude).
    { unfold exclude, exclude_attrs_for. by apply elem_of_union. }
    unfold kept. rewrite without_excluded_lookup. by rewrite decide_True.
  - intros k v Hv Hnot.
    unfold kept. rewrite without_excluded_lookup. by rewrite decide_False.
  - intros Hpg. unfold payload, cut. rewrite Hpg. reflexivity.
  - intros Hrt k. unfold payload. destruct cut; [|reflexivity].
    unfold strip_nul_dict. rewrite Hrt. apply lookup_fmap.
  - intros Hrt k Hk. unfold payload. destruct cut; [|exact Hk].
    unfold strip_nul_dict. rewrite Hrt, lookup_fmap, Hk. reflexivity.
  - intros E' data. unfold EventData_shared_data_bytes_from_event, json_bytes_strip_null.
    by destruct (is_postgresql dialect).
Qed.

(** ** Corrupt JSON payloads *)

Lemma py_json_loads_fails (s : string) :
  json_loads s = None -> py_json_loads json_loads (Some s) = (inl JSONDecodeError, []).
Proof. intros H. unfold py_json_loads. by rewrite H. Qed.

Lemma StateAttributes_to_native_corrupt (sa : StateAttributes) (s : string) :
  sa_shared_attrs sa = Some s -> json_loads s = None ->
  exists msg, StateAttributes_to_native json_loads sa = (inr ∅, [LogException msg]).
Proof.
  intros Hs Hj. unfold StateAttributes_to_native.
  rewrite Hs, py_json_loads_fails by done. eexists. reflexivity.
Qed.

(** C5 (amended): [States.to_native] parses only the inline [attributes]
    column: when it is non-empty and fails to parse, the result is [None]
    with one logged exception and nothing raised. It never reads the dedup
    reference: a row read with another [attributes_id] gives the same result,
    and a row without inline attributes (with a valid entity id and a state
    of at most 255 characters) reads back as a state with empty attributes,
    whatever its dedup row holds. A dedup attribute row ([StateAttributes])
    whose JSON fails to parse reads back as [{}] with one logged exception. *)
Theorem states_to_native_corrupt_attributes (row : @States ts) (validate : bool)
    (s : string) (sa : StateAttributes) (s' : string) :
  truthy_str (st_attributes row) = Some s -> json_loads s = None ->
  sa_shared_attrs sa = Some s' -> json_loads s' = None ->
  (exists msg, States_to_native ts_zero utc_from_timestamp json_loads
                 row validate = (inr None, [LogException msg])) /\
  (exists msg, StateAttributes_to_native json_loads sa = (inr ∅, [LogException msg])) /\
  (forall (row' : @States ts) (attributes_id : option Z),
     States_to_native ts_zero utc_from_timestamp json_loads
       (States_set_attributes_id attributes_id row') validate =
     States_to_native ts_zero utc_from_timestamp json_loads row' validate) /\
  (forall (row' : @States ts) (e st_s : string),
     truthy_str (st_attributes row') = None ->
     st_entity_id row' = Some (DJson (JStr e)) -> valid_entity_id e = true ->
     st_state row' = Some st_s -> (String.length st_s <= MAX_LENGTH_STATE_STATE)%nat ->
     exists st, States_to_native ts_zero utc_from_timestamp json_loads row' validate
                  = (inr (Some st), []) /\
                state_entity_id st = e /\ state_attributes st = ∅).
Proof.
  intros Hs Hj Hs' Hj'. split; [|split; [|split]].
  - unfold States_to_native. rewrite Hs. simpl.
    unfold py_json_loads. rewrite Hj. simpl.
    eexists. reflexivity.
  - by apply (StateAttributes_to_native_corrupt sa s').
  - intros row' a. destruct row'. reflexivity.
  - intros row' e st_s Hattrs He Hv Hst Hlen.
    unfold States_to_native. rewrite Hattrs, He, Hst.
    cbn -[State_new]. destruct (last_changed_collapses row');
      rewrite State_new_valid by assumption;
      (eexists; split; [reflexivity | split; reflexivity]).
Qed.

(** C10: an [EventData] or [StateAttributes] row whose stored JSON text
    fails to parse reads back through [to_native] as the empty dict, with
    one logged exception and nothing raised. *)
Theorem payload_rows_corrupt_json_read_as_empty (ed : EventData) (sa : StateAttributes)
    (s1 s2 : string) :
  ed_shared_data ed = Some s1 -> json_loads s1 = None ->
  sa_shared_attrs sa = Some s2 -> json_loads s2 = None ->
  (exists msg, EventData_to_native json_loads ed = (inr ∅, [LogException msg])) /\
  (exists msg, StateAttributes_to_native json_loads sa = (inr ∅, [LogException msg])).
Proof.
  intros H1 J1 H2 J2. split.
  - unfold EventData_to_native. rewrite H1, py_json_loads_fails by done.
    eexists. reflexivity.
  - by apply (StateAttributes_to_native_corrupt sa s2).
Qed.

(** ** Origin index *)

(** C8 (amended): [Events.from_event] always produces a row; its
    [origin_idx] is [0] for local, [1] for remote and null for any origin
    outside [EVENT_ORIGIN_TO_IDX]; a stored index reads back through
    [EVENT_ORIGIN_ORDER] as the original origin. *)
Theorem events_origin_idx_mapping (E : Event) :
  let idx := ev_origin_idx (Events_from_event utc_to_timestamp E) in
  match event_origin E with
  | EventOrigin_local => idx = Some 0
  | EventOrigin_remote => idx = Some 1
  | OriginOther _ => idx = None
  end /\
  match idx with
  | Some i => py_list_index EVENT_ORIGIN_ORDER (Some i) = mret (event_origin E)
  | None => True
  end.
Proof.
  destruct E as [ty data [| | r] fired ctx]; simpl; split; try reflexivity; exact I.
Qed.

End Properties.

(** ** Recorder runs *)

(** ** Statistics uniqueness *)

Lemma stat_key_collision {double} (r r' : @StatisticsRow double) k :
  stat_key r = Some k -> stat_key r' = Some k ->
  unique_collision ["metadata_id"; "start"]%string r r' = true.
Proof.
  unfold stat_key, unique_collision, stat_column.
  destruct (stat_metadata_id r) as [m|], (stat_start r) as [s|]; try discriminate.
  destruct (stat_metadata_id r') as [m'|], (stat_start r') as [s'|]; try discriminate.
  intros H H'. rewrite <- H' in H. injection H as -> ->. simpl.
  rewrite !bool_decide_eq_true_2 by done. reflexivity.
Qed.

Lemma statistics_insert_row {double} (tbl : StatisticsTable)
    (rows : list (@StatisticsRow double)) r :
  tbl = Statistics \/ tbl = StatisticsShortTerm ->
  insert_row tbl rows r =
    if existsb (unique_collision ["metadata_id"; "start"]%string r) rows
    then inl IntegrityError else inr (rows ++ [r]).
Proof.
  intros [-> | ->]; unfold insert_row; simpl;
    destruct (existsb _ rows); reflexivity.
Qed.

(** C7: in [statistics] and [statistics_short_term], every table content
    reachable through inserts holds at most one row per (metadata id,
    bucket start) pair, and inserting a row whose pair is already present
    raises IntegrityError instead of replacing the existing row. *)
Theorem statistics_unique_per_series_bucket {double} (tbl : StatisticsTable) :
  tbl = Statistics \/ tbl = StatisticsShortTerm ->
  (forall rows : list (@StatisticsRow double),
     reachable tbl rows -> NoDup (omap stat_key rows)) /\
  (forall (rows : list (@StatisticsRow double)) r r' k,
     r' ∈ rows -> stat_key r = Some k -> stat_key r' = Some k ->
     insert_row tbl rows r = inl IntegrityError).
Proof.
  intros Htbl. split.
  - intros rows Hreach. induction Hreach as [|rows r rows' Hreach IH Hins].
    + constructor.
    + rewrite statistics_insert_row in Hins by done.
      destruct (existsb _ rows) eqn:Hex; [discriminate|].
      injection Hins as <-. rewrite omap_app. apply NoDup_app.
      split; [done|]. split.
      * intros k Hk. simpl. destruct (stat_key r) as [k'|] eqn:Hr; simpl.
        -- intros Hin. apply list_elem_of_singleton in Hin as ->.
           apply list_elem_of_omap in Hk as (r' & Hr' & Hk).
           assert (Hc : existsb (unique_collision ["metadata_id"; "start"]%string r) rows = true).
           { apply existsb_exists. exists r'. split.
             - by apply list_elem_of_In.
             - by apply (stat_key_collision r r' k'). }
           congruence.
        -- apply not_elem_of_nil.
      * simpl. destruct (stat_key r); simpl; constructor; [apply not_elem_of_nil|constructor].
  - intros rows r r' k Hin Hr Hr'.
    rewrite statistics_insert_row by done.
    assert (Hc : existsb (unique_collision ["metadata_id"; "start"]%string r) rows = true).
    { apply existsb_exists. exists r'. split.
      - by apply list_elem_of_In.
      - by apply (stat_key_collision r r' k). }
    by rewrite Hc.
Qed.

(* ===================================================================== *)
(** * Witnesses and counterexamples                                       *)
(* ===================================================================== *)

(** C1 at a remote state_changed event, with the conversions taken exact. *)
Lemma events_roundtrip_witness :
  let E := sample_event EventOrigin_remote (DState sample_state) in
  (event_origin E = EventOrigin_local \/ event_origin E = EventOrigin_remote) /\
  exists E',
    Events_to_native (ts := Z) (fun t => t) sample_json_loads
      (Events_from_event (fun d => d) E) = (inr (Some E'), []) /\
    event_type E' = event_type E /\
    event_origin E' = event_origin E /\
    context_id_of (event_context E') = context_id_of (event_context E) /\
    user_id (event_context E') = user_id (event_context E) /\
    parent_id (event_context E') = parent_id (event_context E) /\
    event_time_fired E' = (fun t : Z => t) ((fun d : datetime => d) (event_time_fired E)).
Proof.
  intros E. split; [right; reflexivity|].
  apply (events_from_event_to_native_roundtrip (ts := Z) (fun d => d) (fun t => t)
           sample_json_loads E).
  right. reflexivity.
Defined.

(** C2 at the sample state, whose last_changed equals its last_updated. *)
Lemma states_last_changed_compression_witness :
  let E := sample_event EventOrigin_local (DState sample_state) in
  event_data E !! "entity_id"%string = Some (DJson (JStr "light.x")) /\
  event_data E !! "new_state"%string = Some (DState sample_state) /\
  ((exists row,
     States_from_event (ts := Z) (fun d => d) E = (inr row, []) /\
     (st_last_changed_ts row = None <->
        state_last_changed sample_state = state_last_updated sample_state) /\
     (state_last_changed sample_state <> state_last_updated sample_state ->
      st_last_changed_ts row = Some ((fun d : datetime => d) (state_last_changed sample_state)))) /\
  (forall (row : @States Z) validate st,
     (st_last_changed_ts row = None \/
      exists u, st_last_changed_ts row = Some u /\ st_last_updated_ts row = Some u) ->
     py_value (States_to_native 0 (fun t => t) sample_json_loads
                 row validate) = inr (Some st) ->
     state_last_changed st = state_last_updated st)).
Proof.
  intros E. split; [reflexivity|]. split; [reflexivity|].
  apply (states_last_changed_compression (ts := Z) 0 (fun d => d) (fun t => t)
           sample_json_loads E "light.x" sample_state);
    reflexivity.
Defined.

(** C3 at a removal event ([new_state] is [None]). *)
Lemma states_removal_sentinel_witness :
  let E := sample_event EventOrigin_local (DJson JNull) in
  event_data E !! "entity_id"%string = Some (DJson (JStr "light.x")) /\
  (event_data E !! "new_state"%string = None \/
   event_data E !! "new_state"%string = Some (DJson JNull)) /\
  ((exists row,
     States_from_event (ts := Z) (fun d => d) E = (inr row, []) /\
     st_state row = Some ""%string /\
     st_last_updated_ts row = Some ((fun d : datetime => d) (event_time_fired E)) /\
     st_last_changed_ts row = None) /\
  (forall exclude_attrs_by_domain dialect,
     StateAttributes_shared_attrs_bytes_from_event (sample_json_bytes 2) (fun _ => ∅) ∅
       E exclude_attrs_by_domain dialect = (inr EMPTY_OBJECT_BYTES, []))).
Proof.
  intros E. split; [reflexivity|]. split; [right; reflexivity|].
  apply (states_removal_sentinel (ts := Z) (fun d => d) (sample_json_bytes 2) (fun _ => ∅) ∅
           E "light.x"); [reflexivity | right; reflexivity].
Defined.

(** C4 with an encoder producing 20000 bytes. *)
Lemma shared_attrs_oversized_replaced_witness :
  let E := sample_event EventOrigin_local (DState sample_state) in
  event_data E !! "new_state"%string = Some (DState sample_state) /\
  (MAX_STATE_ATTRS_BYTES <
     length (attrs_encoder (sample_json_bytes 20000) (fun _ => ∅) None
               (without_excluded (exclude_attrs_for ∅ ∅ (state_entity_id sample_state))
                  (state_attributes sample_state))))%nat /\
  exists msg,
    StateAttributes_shared_attrs_bytes_from_event (sample_json_bytes 20000) (fun _ => ∅) ∅
      E ∅ None = (inr EMPTY_OBJECT_BYTES, [LogWarning msg]).
Proof.
  intros E.
  assert (Hlen : (MAX_STATE_ATTRS_BYTES <
     length (attrs_encoder (sample_json_bytes 20000) (fun _ => ∅) None
               (without_excluded (exclude_attrs_for ∅ ∅ (state_entity_id sample_state))
                  (state_attributes sample_state))))%nat).
  { change (attrs_encoder (sample_json_bytes 20000) (fun _ => ∅) None) with (sample_json_bytes 20000).
    unfold sample_json_bytes. rewrite repeat_length.
    apply Nat.ltb_lt. vm_compute. reflexivity. }
  split; [reflexivity|]. split; [exact Hlen|].
  apply (shared_attrs_oversized_replaced (sample_json_bytes 20000) (fun _ => ∅) ∅ E sample_state ∅ None);
    [reflexivity | exact Hlen].
Defined.

(** C5 as stated fails: a state row without inline attributes whose dedup
    attribute row holds unparsable JSON reads back as a state (not [None]),
    and the dedup row itself reads back as [{}] (not [None]). *)
Lemma states_dedup_corrupt_attrs_read_not_null :
  let row := sample_states_row "light.x" None None (Some 5) None in
  let sa := sample_attributes_row "{bad" in
  st_attributes_id row = sa_attributes_id sa /\
  sample_json_loads "{bad" = None /\
  py_value (StateAttributes_to_native sample_json_loads sa) = inr ∅ /\
  exists st,
    py_value (States_to_native 0 (fun t => t) sample_json_loads
                row true) = inr (Some st).
Proof.
  intros row sa. split; [reflexivity|]. split; [reflexivity|].
  split; [reflexivity|]. eexists. reflexivity.
Defined.

(** C5 (amended) at a row whose inline attributes do not parse, and at the
    same row without inline attributes. *)
Lemma states_to_native_corrupt_attributes_witness :
  let row := sample_states_row "light.x" None (Some "{bad"%string) (Some 5) None in
  let sa := sample_attributes_row "{bad" in
  truthy_str (st_attributes row) = Some "{bad"%string /\
  sample_json_loads "{bad" = None /\
  sa_shared_attrs sa = Some "{bad"%string /\
  (exists msg, States_to_native 0 (fun t => t) sample_json_loads
                 row true = (inr None, [LogException msg])) /\
  (exists msg, StateAttributes_to_native sample_json_loads sa = (inr ∅, [LogException msg])) /\
  (exists st, States_to_native 0 (fun t => t) sample_json_loads
                (sample_states_row "light.x" None None (Some 5) None) true
                = (inr (Some st), []) /\
              state_entity_id st = "light.x"%string /\ state_attributes st = ∅).
Proof.
  intros row sa. split; [reflexivity|]. split; [reflexivity|]. split; [reflexivity|].
  destruct (states_to_native_corrupt_attributes (ts := Z) 0 (fun t => t)
              sample_json_loads row true "{bad" sa "{bad")
    as (H1 & H2 & _ & H4); [reflexivity | reflexivity | reflexivity | reflexivity |].
  split; [exact H1|]. split; [exact H2|].
  apply (H4 _ "light.x" "on"); [reflexivity | reflexivity | reflexivity | reflexivity |].
  apply Nat.leb_le. reflexivity.
Defined.

(** C6: a state row written by [States.from_event] for the sample event,
    last updated at [sample_time], inside a run from one minute before to
    one minute after it, is not returned by [RecorderRuns.entity_ids],
    neither for a point in time one microsecond later nor without one: the
    query compares the legacy [States.last_updated] column, which
    [from_event] leaves null, instead of [last_updated_ts]. *)
Theorem recorder_runs_entity_ids_misses_new_rows :
  let run := sample_recorder_run (Some (sample_time - 60000000))
               (Some (sample_time + 60000000)) in
  let E := sample_event EventOrigin_local (DState sample_state) in
  exists row,
    States_from_event (ts := Z) (fun d => d) E = (inr row, []) /\
    st_entity_id row = Some (DJson (JStr "light.x")) /\
    st_last_updated_ts row = Some sample_time /\
    st_last_updated row = None /\
    sample_time - 60000000 <= sample_time < sample_time + 1 /\
    RecorderRuns_entity_ids run (Some [row]) (Some (sample_time + 1)) = (inr [], []) /\
    RecorderRuns_entity_ids run (Some [row]) None = (inr [], []).
Proof.
  intros run E. eexists. split; [reflexivity|].
  do 3 (split; [reflexivity|]). split; [unfold sample_time; lia|].
  split; reflexivity.
Qed.

(** C7 on the long-term statistics table. *)
Lemma statistics_unique_per_series_bucket_witness :
  Statistics = Statistics /\
  (forall rows : list (@StatisticsRow Z),
     reachable Statistics rows -> NoDup (omap stat_key rows)) /\
  (forall (rows : list (@StatisticsRow Z)) r r' k,
     r' ∈ rows -> stat_key r = Some k -> stat_key r' = Some k ->
     insert_row Statistics rows r = inl IntegrityError).
Proof.
  split; [reflexivity|].
  apply (statistics_unique_per_series_bucket (double := Z) Statistics).
  left. reflexivity.
Defined.

(** A concrete second write of the same (series, bucket) pair. *)
Example statistics_second_write_conflicts :
  insert_row StatisticsShortTerm [sample_statistics_row 7 sample_time]
    (sample_statistics_row 7 sample_time) = inl IntegrityError.
Proof. reflexivity. Qed.

(** C8 as stated fails: an origin outside [EVENT_ORIGIN_TO_IDX] produces a
    row, with a null [origin_idx], instead of an error. *)
Lemma events_unknown_origin_recorded :
  ev_origin_idx (Events_from_event (fun d : datetime => d)
                   (sample_event (OriginOther "bogus") (DJson JNull))) = None /\
  ev_event_type (Events_from_event (fun d : datetime => d)
                   (sample_event (OriginOther "bogus") (DJson JNull)))
    = Some "state_changed"%string.
Proof. split; reflexivity. Defined.

(** C9 as stated fails: on PostgreSQL, a null-valued attribute is kept in
    the stored encoding, which differs from the encoding of the attributes
    without it. *)
Lemma postgresql_keeps_null_attributes :
  let E := sample_event EventOrigin_local (DState sample_null_state) in
  let all : gset string := {["restored"%string]} in
  StateAttributes_shared_attrs_bytes_from_event sample_key_bytes (fun _ => sample_null_kept)
    all E ∅ (Some POSTGRESQL) = (inr (sample_key_bytes sample_null_kept), []) /\
  sample_null_kept !! "friendly_name"%string = Some JNull /\
  sample_key_bytes sample_null_kept <>
    sample_key_bytes (<["brightness"%string := JNum 100]> ∅).
Proof.
  intros E all. split; [vm_compute; reflexivity|]. split; [reflexivity|].
  intros H. vm_compute in H. discriminate H.
Defined.

(** C9 (amended) on PostgreSQL with a global exclusion set, a null-valued
    attribute and a decoder inverting the encoder on the kept attributes. *)
Lemma canonical_attribute_encoding_witness :
  let E := sample_event EventOrigin_local (DState sample_null_state) in
  let all : gset string := {["restored"%string]} in
  event_data E !! "new_state"%string = Some (DState sample_null_state) /\
  without_excluded (exclude_attrs_for all ∅ (state_entity_id sample_null_state))
    (state_attributes sample_null_state) = sample_null_kept /\
  py_value (StateAttributes_shared_attrs_bytes_from_event sample_key_bytes
              (fun _ => sample_null_kept) all E ∅ (Some POSTGRESQL)) =
    inr (sample_key_bytes sample_null_kept).
Proof.
  intros E all.
  assert (Hkept : without_excluded (exclude_attrs_for all ∅ (state_entity_id sample_null_state))
                    (state_attributes sample_null_state) = sample_null_kept)
    by (vm_compute; reflexivity).
  split; [reflexivity|]. split; [exact Hkept|].
  destruct (canonical_attribute_encoding sample_key_bytes (fun _ => JNull)
              (fun _ => sample_null_kept) all E sample_null_state ∅ (Some POSTGRESQL)
              eq_refl) as (H1 & _).
  rewrite H1. vm_compute. reflexivity.
Defined.

(** C10 on corrupt event data and attribute rows. *)
Lemma payload_rows_corrupt_json_read_as_empty_witness :
  let ed := {| ed_data_id := Some 1; ed_hash := None; ed_shared_data := Some "[1,"%string |} in
  let sa := sample_attributes_row "{bad" in
  ed_shared_data ed = Some "[1,"%string /\ sample_json_loads "[1," = None /\
  sa_shared_attrs sa = Some "{bad"%string /\ sample_json_loads "{bad" = None /\
  (exists msg, EventData_to_native sample_json_loads ed = (inr ∅, [LogException msg])) /\
  (exists msg, StateAttributes_to_native sample_json_loads sa = (inr ∅, [LogException msg])).
Proof.
  intros ed sa. do 4 (split; [reflexivity|]).
  apply (payload_rows_corrupt_json_read_as_empty sample_json_loads ed sa "[1," "{bad");
    reflexivity.
Defined.

(* ===================================================================== *)
(** * Further properties of the schema code                               *)
(* ===================================================================== *)

(** A list filter that keeps no element of the list is empty. *)
Lemma filter_none {A} (P : A -> Prop) `{forall x, Decision (P x)} (l : list A) :
  (forall x, x ∈ l -> ~ P x) -> filter P l = [].
Proof.
  induction l as [|a l IH]; intros Hl; [reflexivity|].
  rewrite filter_cons_False.
  - apply IH. intros x Hx. apply Hl. constructor. exact Hx.
  - apply Hl. constructor.
Qed.

Section ExtraProperties.

Context {ts : Type} `{EqDecision ts} (ts_zero : ts).
Context (utc_to_timestamp : datetime -> ts) (utc_from_timestamp : ts -> datetime).
Context (json_loads : string -> option (gmap string json)).
Context (json_bytes : gmap string json -> bytes).
Context (orjson_loads : bytes -> gmap string json).
Context (ALL_DOMAIN_EXCLUDE_ATTRS : gset string).

(** A state row written by [States.from_event] for a non-null new state
    reads back through [States.to_native] (with a valid entity id and a
    state of at most 255 characters) as a state with the event's entity id,
    the new state's value, empty attributes (they live in the dedup row),
    the event's context, last_updated the float round trip of the original,
    last_changed equal to last_updated when the two were equal, and the
    float round trip of last_changed when their timestamps differ. *)
Theorem states_from_event_to_native_roundtrip (E : Event) (eid : string) (s : State)
    (validate : bool) :
  event_data E !! "entity_id"%string = Some (DJson (JStr eid)) ->
  event_data E !! "new_state"%string = Some (DState s) ->
  valid_entity_id eid = true ->
  (String.length (state_state s) <= MAX_LENGTH_STATE_STATE)%nat ->
  exists row st,
    States_from_event utc_to_timestamp E = (inr row, []) /\
    States_to_native ts_zero utc_from_timestamp json_loads row validate
      = (inr (Some st), []) /\
    state_entity_id st = eid /\
    state_state st = state_state s /\
    state_attributes st = ∅ /\
    state_context st = event_context E /\
    state_last_updated st = utc_from_timestamp (utc_to_timestamp (state_last_updated s)) /\
    (state_last_changed s = state_last_updated s ->
     state_last_changed st = state_last_updated st) /\
    (utc_to_timestamp (state_last_changed s) <> utc_to_timestamp (state_last_updated s) ->
     state_last_changed st = utc_from_timestamp (utc_to_timestamp (state_last_changed s))).
Proof using.
  intros Heid Hnew Hvalid Hlen.
  unfold States_from_event, getitem_entity_id, get_new_state.
  rewrite Heid, Hnew. simpl.
  destruct E as [ty data origin fired [cid uid pid]]; simpl.
  destruct (decide (state_last_updated s = state_last_changed s)) as [Heq|Hne].
  - eexists _, _. split; [reflexivity|].
    unfold States_to_native. cbn -[State_new].
    rewrite State_new_valid by assumption.
    split; [reflexivity|]. repeat split; try reflexivity.
    intros Hts. exfalso. apply Hts. by rewrite Heq.
  - destruct (decide (utc_to_timestamp (state_last_changed s) =
                      utc_to_timestamp (state_last_updated s))) as [Hts|Hts].
    + eexists _, _. split; [reflexivity|].
      unfold States_to_native, last_changed_collapses. cbn -[State_new].
      rewrite bool_decide_eq_true_2 by done.
      rewrite State_new_valid by assumption.
      split; [reflexivity|]. repeat split; try reflexivity; intros; try congruence.
    + eexists _, _. split; [reflexivity|].
      unfold States_to_native, last_changed_collapses. cbn -[State_new].
      rewrite bool_decide_eq_false_2 by done.
      rewrite State_new_valid by assumption.
      split; [reflexivity|]. repeat split; try reflexivity; intros; congruence.
Qed.

(** For a removal event ([new_state] absent or [None]) whose [entity_id] is
    a valid entity id string, the row written reads back as a state with
    that entity id, the empty string as value, empty attributes, and
    last_changed = last_updated = the float round trip of the event's
    fired-at. *)
Theorem states_removal_to_native (E : Event) (eid : string) (validate : bool) :
  event_data E !! "entity_id"%string = Some (DJson (JStr eid)) ->
  (event_data E !! "new_state"%string = None \/
   event_data E !! "new_state"%string = Some (DJson JNull)) ->
  valid_entity_id eid = true ->
  exists row st,
    States_from_event utc_to_timestamp E = (inr row, []) /\
    States_to_native ts_zero utc_from_timestamp json_loads row validate
      = (inr (Some st), []) /\
    state_entity_id st = eid /\
    state_state st = ""%string /\
    state_attributes st = ∅ /\
    state_last_updated st = utc_from_timestamp (utc_to_timestamp (event_time_fired E)) /\
    state_last_changed st = state_last_updated st.
Proof using.
  intros Heid Hnew Hvalid.
  assert (Hget : get_new_state (event_data E) = (inr None, [])).
  { unfold get_new_state. by destruct Hnew as [-> | ->]. }
  unfold States_from_event, getitem_entity_id. rewrite Heid, Hget. simpl.
  eexists _, _. split; [reflexivity|].
  unfold States_to_native. cbn -[State_new].
  rewrite State_new_valid by (try assumption; unfold MAX_LENGTH_STATE_STATE; simpl; lia).
  split; [reflexivity|]. repeat split.
Qed.

(** [States.from_event] raises KeyError when the event data has no
    [entity_id], whatever its [new_state]. *)
Theorem states_from_event_missing_entity_id (E : Event) :
  event_data E !! "entity_id"%string = None ->
  States_from_event utc_to_timestamp E = (inl KeyError, []).
Proof using.
  intros H. unfold States_from_event, getitem_entity_id. by rewrite H.
Qed.

(** [EVENT_ORIGIN_ORDER[i]] outside [-2, 2) raises IndexError. *)
Lemma origin_order_index_out_of_range (i : Z) :
  i < -2 \/ 2 <= i -> py_list_index EVENT_ORIGIN_ORDER (Some i) = raise IndexError.
Proof using.
  intros Hi. unfold py_list_index. cbv zeta.
  change (Z.of_nat (length EVENT_ORIGIN_ORDER)) with 2.
  destruct (i <? 0) eqn:Hneg.
  - apply Z.ltb_lt in Hneg.
    replace ((i + 2 <? 0) || (2 <=? i + 2)) with true; [reflexivity|].
    symmetry. apply orb_true_iff. left. apply Z.ltb_lt. lia.
  - apply Z.ltb_ge in Hneg.
    replace ((i <? 0) || (2 <=? i)) with true; [reflexivity|].
    symmetry. apply orb_true_iff. right. apply Z.leb_le. lia.
Qed.

(** On a row without legacy origin string and without inline data, with a
    [time_fired_ts], [Events.to_native] indexes [EVENT_ORIGIN_ORDER] the
    Python way: indices 0 and -2 read as local, 1 and -1 as remote; any
    other index raises IndexError and a null index raises TypeError, both
    propagated to the caller (only JSON errors are caught). *)
Theorem events_to_native_origin_idx (row : @Events ts) (t : ts) :
  truthy_str (ev_event_data row) = None ->
  truthy_str (ev_origin row) = None ->
  ev_time_fired_ts row = Some t ->
  (forall i, ev_origin_idx row = Some i -> -2 <= i < 2 ->
     exists E', Events_to_native utc_from_timestamp json_loads row = (inr (Some E'), []) /\
       event_origin E' = (if Z.even i then EventOrigin_local else EventOrigin_remote) /\
       event_time_fired E' = utc_from_timestamp t) /\
  (forall i, ev_origin_idx row = Some i -> i < -2 \/ 2 <= i ->
     Events_to_native utc_from_timestamp json_loads row = (inl IndexError, [])) /\
  (ev_origin_idx row = None ->
     Events_to_native utc_from_timestamp json_loads row = (inl TypeError, [])).
Proof using.
  intros Hdata Horigin Hts. unfold Events_to_native. rewrite Hdata, Horigin, Hts.
  split; [|split].
  - intros i Hi Hrange. rewrite Hi.
    assert (Hcases : i = -2 \/ i = -1 \/ i = 0 \/ i = 1) by lia.
    destruct Hcases as [-> | [-> | [-> | ->]]]; eexists; split; try reflexivity;
      split; reflexivity.
  - intros i Hi Hrange. rewrite Hi, origin_order_index_out_of_range by done.
    reflexivity.
  - intros Hi. rewrite Hi. reflexivity.
Qed.

(** On a row with no inline event data, a non-empty legacy [origin] string
    takes precedence over [origin_idx]: with a [time_fired_ts], "LOCAL" and
    "REMOTE" read as local and remote whatever the index holds; any other
    non-empty string raises ValueError to the caller, whatever the index and
    time columns hold. *)
Theorem events_to_native_legacy_origin (row : @Events ts) (o : string) :
  truthy_str (ev_event_data row) = None ->
  ev_origin row = Some o ->
  (o = "LOCAL"%string -> forall t, ev_time_fired_ts row = Some t ->
     exists E', Events_to_native utc_from_timestamp json_loads row = (inr (Some E'), []) /\
       event_origin E' = EventOrigin_local /\ event_time_fired E' = utc_from_timestamp t) /\
  (o = "REMOTE"%string -> forall t, ev_time_fired_ts row = Some t ->
     exists E', Events_to_native utc_from_timestamp json_loads row = (inr (Some E'), []) /\
       event_origin E' = EventOrigin_remote /\ event_time_fired E' = utc_from_timestamp t) /\
  (o <> ""%string -> o <> "LOCAL"%string -> o <> "REMOTE"%string ->
     Events_to_native utc_from_timestamp json_loads row = (inl ValueError, [])).
Proof using.
  intros Hdata Ho. unfold Events_to_native. rewrite Hdata, Ho.
  split; [|split].
  - intros -> t Hts. rewrite Hts. eexists. split; [reflexivity|]. split; reflexivity.
  - intros -> t Hts. rewrite Hts. eexists. split; [reflexivity|]. split; reflexivity.
  - intros H1 H2 H3. unfold truthy_str.
    rewrite (proj2 (String.eqb_neq o "") H1). simpl.
    unfold EventOrigin_of_string.
    rewrite (proj2 (String.eqb_neq o "LOCAL") H2), (proj2 (String.eqb_neq o "REMOTE") H3).
    reflexivity.
Qed.

(** Inline event data that fails to parse makes [Events.to_native] return
    [None] with one logged exception, whatever the origin and time columns
    hold (the data is decoded first). *)
Theorem events_to_native_corrupt_data (row : @Events ts) (s : string) :
  truthy_str (ev_event_data row) = Some s -> json_loads s = None ->
  exists msg, Events_to_native utc_from_timestamp json_loads row = (inr None, [LogException msg]).
Proof using.
  intros Hdata Hj. unfold Events_to_native. rewrite Hdata. simpl.
  unfold py_json_loads. rewrite Hj. simpl. eexists. reflexivity.
Qed.

(** On a row with no inline event data whose origin resolves (legacy
    origin "LOCAL" or "REMOTE", or no legacy origin and an [origin_idx] in
    [-2, 2)), [Events.to_native] reads only [time_fired_ts]: when it is null
    the call raises TypeError to the caller, even when the legacy
    [time_fired] column is set. *)
Theorem events_to_native_null_time_fired_ts (row : @Events ts) :
  truthy_str (ev_event_data row) = None ->
  (ev_origin row = Some "LOCAL"%string \/ ev_origin row = Some "REMOTE"%string \/
   (truthy_str (ev_origin row) = None /\
    exists i, ev_origin_idx row = Some i /\ -2 <= i < 2)) ->
  ev_time_fired_ts row = None ->
  Events_to_native utc_from_timestamp json_loads row = (inl TypeError, []).
Proof using.
  intros Hdata Horigin Hts. unfold Events_to_native.
  rewrite Hdata, Hts.
  destruct Horigin as [Ho | [Ho | [Ho (i & Hi & Hrange)]]].
  - rewrite Ho. reflexivity.
  - rewrite Ho. reflexivity.
  - rewrite Ho, Hi.
    assert (Hcases : i = -2 \/ i = -1 \/ i = 0 \/ i = 1) by lia.
    destruct Hcases as [-> | [-> | [-> | ->]]]; reflexivity.
Qed.

(** A row written by [Events.from_event] carries no event data: reading it
    back gives an event with empty data (the payload is kept in a separate
    [EventData] row). *)
Theorem events_from_event_to_native_empty_data (E : Event) :
  event_origin E = EventOrigin_local \/ event_origin E = EventOrigin_remote ->
  ev_event_data (Events_from_event utc_to_timestamp E) = None /\
  exists E', Events_to_native utc_from_timestamp json_loads
               (Events_from_event utc_to_timestamp E) = (inr (Some E'), []) /\
             event_data E' = ∅.
Proof using.
  intros Horigin. split; [reflexivity|].
  destruct E as [ty data origin fired ctx]; simpl in *.
  destruct Horigin as [-> | ->]; eexists; split; reflexivity.
Qed.



(** Whatever the event, the exclusions and the dialect,
    [shared_attrs_bytes_from_event] never returns more than
    [MAX_STATE_ATTRS_BYTES] bytes. *)
Theorem shared_attrs_bytes_within_limit (E : Event)
    (exclude_attrs_by_domain : gmap string (gset string))
    (dialect : option SupportedDialect) (b : bytes) (logs : list log_entry) :
  StateAttributes_shared_attrs_bytes_from_event json_bytes orjson_loads ALL_DOMAIN_EXCLUDE_ATTRS
    E exclude_attrs_by_domain dialect = (inr b, logs) ->
  (length b <= MAX_STATE_ATTRS_BYTES)%nat.
Proof using.
  unfold StateAttributes_shared_attrs_bytes_from_event.
  destruct (get_new_state (event_data E)) as [[err|[st|]] l]; simpl.
  - intros [=].
  - destruct (Nat.ltb _ _) eqn:Hlt; simpl; intros [= <- _].
    + apply Nat.leb_le. reflexivity.
    + apply Nat.ltb_ge in Hlt. exact Hlt.
  - intros [= <- _]. apply Nat.leb_le. reflexivity.
Qed.

(** On rows written by [States.from_event] (which leave the legacy
    [last_updated] column null), [RecorderRuns.entity_ids] returns no entity
    id at all, whatever the run and the point in time. *)
Theorem recorder_runs_entity_ids_null_last_updated (self : RecorderRuns)
    (rows : list (@States ts)) (point_in_time : option datetime) :
  Forall (fun r => st_last_updated r = None) rows ->
  RecorderRuns_entity_ids self (Some rows) point_in_time = (inr [], []).
Proof using.
  intros Hrows. unfold RecorderRuns_entity_ids.
  rewrite filter_none; [reflexivity|].
  intros r Hr. rewrite List.Forall_forall in Hrows.
  apply list_elem_of_In, Hrows in Hr.
  unfold sql_ge. rewrite Hr. simpl. exact (fun H => H).
Qed.

(** [RecorderRuns.entity_ids] is monotone in [point_in_time]: an entity id
    seen before an earlier point in time is also seen before a later one. *)
Theorem recorder_runs_entity_ids_monotone (self : RecorderRuns)
    (rows : list (@States ts)) (p1 p2 : datetime) (l1 l2 : list (option dval))
    (x : option dval) :
  p1 <= p2 ->
  fst (RecorderRuns_entity_ids self (Some rows) (Some p1)) = inr l1 ->
  fst (RecorderRuns_entity_ids self (Some rows) (Some p2)) = inr l2 ->
  x ∈ l1 -> x ∈ l2.
Proof using.
  intros Hp H1 H2. simpl in H1, H2. injection H1 as <-. injection H2 as <-.
  rewrite !elem_of_remove_dups, !list_elem_of_fmap.
  intros [r [-> Hr]]. exists r. split; [reflexivity|].
  apply list_elem_of_filter in Hr as [Hlu Hr].
  apply list_elem_of_filter. split; [|exact Hr].
  apply Is_true_true in Hlu. apply Is_true_true.
  apply andb_true_iff in Hlu as [Hlo Hup]. apply andb_true_iff. split; [exact Hlo|].
  unfold sql_lt in *. destruct (st_last_updated r) as [u|]; [|discriminate].
  apply Z.ltb_lt in Hup. apply Z.ltb_lt. lia.
Qed.

(** A [point_in_time] at or before the run's start selects no state row:
    [RecorderRuns.entity_ids] returns the empty list. *)
Theorem recorder_runs_entity_ids_before_start (self : RecorderRuns)
    (rows : list (@States ts)) (start p : datetime) :
  rr_start self = Some start -> p <= start ->
  RecorderRuns_entity_ids self (Some rows) (Some p) = (inr [], []).
Proof using.
  intros Hstart Hp. unfold RecorderRuns_entity_ids.
  rewrite filter_none; [reflexivity|].
  intros r _. rewrite Hstart. unfold sql_ge, sql_lt.
  destruct (st_last_updated r) as [u|]; simpl; [|exact (fun H => H)].
  destruct (start <=? u) eqn:H1; simpl; [|exact (fun H => H)].
  apply Z.leb_le in H1. destruct (u <? p) eqn:H2; simpl; [|exact (fun H => H)].
  apply Z.ltb_lt in H2. lia.
Qed.

End ExtraProperties.

(** [fnv1a_32] keeps its value in [0, 2^32) from any start value in that
    range. *)
Lemma fnv1a_32_from_range (h : Z) (data : bytes) :
  0 <= h < 2 ^ 32 -> 0 <= fnv1a_32_from h data < 2 ^ 32.
Proof.
  revert h. induction data as [|b rest IH]; intros h Hh; simpl; [exact Hh|].
  apply IH. apply Z.mod_pos_bound. lia.
Qed.

(** Both payload hashes lie in [0, 2^32), so they fit the signed 64-bit
    [BigInteger] hash columns; they do not all fit a signed 32-bit integer:
    the hash of the empty payload is above [2^31 - 1]. *)
Theorem payload_hashes_fit_bigint_column (data : bytes) :
  0 <= EventData_hash_shared_data_bytes data < 2 ^ 32 /\
  0 <= StateAttributes_hash_shared_attrs_bytes data < 2 ^ 32 /\
  2 ^ 31 - 1 < EventData_hash_shared_data_bytes [] /\
  2 ^ 31 - 1 < StateAttributes_hash_shared_attrs_bytes [].
Proof.
  unfold EventData_hash_shared_data_bytes, StateAttributes_hash_shared_attrs_bytes,
    fnv1a_32.
  assert (Hinit : 0 <= FNV1_32_INIT < 2 ^ 32) by (unfold FNV1_32_INIT; lia).
  split; [|split]; [apply fnv1a_32_from_range; exact Hinit
                   | apply fnv1a_32_from_range; exact Hinit | ].
  simpl. unfold FNV1_32_INIT. lia.
Qed.

(* ===================================================================== *)
(** * Witnesses of the further properties                                 *)
(* ===================================================================== *)

(** The state round trip at the sample state. *)
Lemma states_from_event_to_native_roundtrip_witness :
  let E := sample_event EventOrigin_local (DState sample_state) in
  event_data E !! "entity_id"%string = Some (DJson (JStr "light.x")) /\
  event_data E !! "new_state"%string = Some (DState sample_state) /\
  valid_entity_id "light.x" = true /\
  (String.length (state_state sample_state) <= MAX_LENGTH_STATE_STATE)%nat /\
  exists row st,
    States_from_event (ts := Z) (fun d => d) E = (inr row, []) /\
    States_to_native 0 (fun t => t) sample_json_loads row true
      = (inr (Some st), []) /\
    state_entity_id st = "light.x"%string /\
    state_state st = state_state sample_state /\
    state_attributes st = ∅ /\
    state_context st = event_context E /\
    state_last_updated st = state_last_updated sample_state.
Proof.
  intros E. split; [reflexivity|]. split; [reflexivity|]. split; [reflexivity|].
  split; [apply Nat.leb_le; reflexivity|].
  destruct (states_from_event_to_native_roundtrip (ts := Z) 0 (fun d => d) (fun t => t)
              sample_json_loads E "light.x" sample_state true)
    as (row & st & Hrow & Hst & Heid & Hstate & Hattrs & Hctx & Hlu & _);
    [reflexivity | reflexivity | reflexivity | apply Nat.leb_le; reflexivity |].
  exists row, st. repeat split; assumption.
Defined.

(** The removal read-back at a removal event ([new_state] is [None]). *)
Lemma states_removal_to_native_witness :
  let E := sample_event EventOrigin_local (DJson JNull) in
  event_data E !! "entity_id"%string = Some (DJson (JStr "light.x")) /\
  (event_data E !! "new_state"%string = None \/
   event_data E !! "new_state"%string = Some (DJson JNull)) /\
  valid_entity_id "light.x" = true /\
  exists row st,
    States_from_event (ts := Z) (fun d => d) E = (inr row, []) /\
    States_to_native 0 (fun t => t) sample_json_loads row true
      = (inr (Some st), []) /\
    state_entity_id st = "light.x"%string /\
    state_state st = ""%string /\
    state_attributes st = ∅ /\
    state_last_updated st = sample_time /\
    state_last_changed st = state_last_updated st.
Proof.
  intros E. split; [reflexivity|]. split; [right; reflexivity|]. split; [reflexivity|].
  apply (states_removal_to_native (ts := Z) 0 (fun d => d) (fun t => t)
           sample_json_loads E "light.x" true); [reflexivity | right; reflexivity | reflexivity].
Defined.

(** An event without [entity_id]. *)
Lemma states_from_event_missing_entity_id_witness :
  let E := {| event_type := "state_changed"%string;
              event_data := <["new_state"%string := DJson JNull]> ∅;
              event_origin := EventOrigin_local;
              event_time_fired := sample_time;
              event_context := sample_context |} in
  event_data E !! "entity_id"%string = None /\
  States_from_event (ts := Z) (fun d => d) E = (inl KeyError, []).
Proof.
  intros E. split; [reflexivity|].
  apply states_from_event_missing_entity_id. reflexivity.
Defined.

(** Origin index -1 (remote by negative indexing), at time 5. *)
Lemma events_to_native_origin_idx_witness :
  let row := sample_events_row None None (Some (-1)) None (Some 5) in
  truthy_str (ev_event_data row) = None /\
  truthy_str (ev_origin row) = None /\
  ev_time_fired_ts row = Some 5 /\
  exists E', Events_to_native (fun t => t) sample_json_loads row = (inr (Some E'), []) /\
    event_origin E' = EventOrigin_remote /\ event_time_fired E' = 5.
Proof.
  intros row. split; [reflexivity|]. split; [reflexivity|]. split; [reflexivity|].
  destruct (events_to_native_origin_idx (fun t => t) sample_json_loads row 5)
    as [Hin _]; [reflexivity | reflexivity | reflexivity |].
  apply (Hin (-1)); [reflexivity | lia].
Defined.

(** Legacy origin "LOCAL" on a row whose index says remote. *)
Lemma events_to_native_legacy_origin_witness :
  let row := sample_events_row None (Some "LOCAL"%string) (Some 1) None (Some 5) in
  truthy_str (ev_event_data row) = None /\
  ev_origin row = Some "LOCAL"%string /\
  ev_time_fired_ts row = Some 5 /\
  exists E', Events_to_native (fun t => t) sample_json_loads row = (inr (Some E'), []) /\
    event_origin E' = EventOrigin_local /\ event_time_fired E' = 5.
Proof.
  intros row. split; [reflexivity|]. split; [reflexivity|]. split; [reflexivity|].
  destruct (events_to_native_legacy_origin (fun t => t) sample_json_loads row "LOCAL")
    as [Hlocal _]; [reflexivity | reflexivity |].
  apply (Hlocal eq_refl 5). reflexivity.
Defined.

(** Inline event data that the decoder refuses. *)
Lemma events_to_native_corrupt_data_witness :
  let row := sample_events_row (Some "{"%string) None (Some 0) None (Some 5) in
  truthy_str (ev_event_data row) = Some "{"%string /\
  sample_json_loads "{" = None /\
  exists msg, Events_to_native (fun t => t) sample_json_loads row = (inr None, [LogException msg]).
Proof.
  intros row. split; [reflexivity|]. split; [reflexivity|].
  apply (events_to_native_corrupt_data (fun t => t) sample_json_loads row "{");
    reflexivity.
Defined.

(** A row with legacy origin "LOCAL", the legacy [time_fired] set and
    [time_fired_ts] null. *)
Lemma events_to_native_null_time_fired_ts_witness :
  let row := sample_events_row None (Some "LOCAL"%string) None (Some sample_time) None in
  truthy_str (ev_event_data row) = None /\
  ev_origin row = Some "LOCAL"%string /\
  ev_time_fired row = Some sample_time /\
  ev_time_fired_ts row = None /\
  Events_to_native (fun t => t) sample_json_loads row = (inl TypeError, []).
Proof.
  intros row. do 4 (split; [reflexivity|]).
  apply (events_to_native_null_time_fired_ts (fun t => t) sample_json_loads row);
    [reflexivity | left; reflexivity | reflexivity].
Defined.

(** The sample event, whose data is not empty. *)
Lemma events_from_event_to_native_empty_data_witness :
  let E := sample_event EventOrigin_local (DState sample_state) in
  (event_origin E = EventOrigin_local \/ event_origin E = EventOrigin_remote) /\
  event_data E <> ∅ /\
  exists E', Events_to_native (fun t => t) sample_json_loads
               (Events_from_event (ts := Z) (fun d => d) E) = (inr (Some E'), []) /\
             event_data E' = ∅.
Proof.
  intros E. split; [left; reflexivity|].
  split; [intros H; discriminate (f_equal (lookup "entity_id"%string) H)|].
  apply (events_from_event_to_native_empty_data (fun d => d) (fun t => t)
           sample_json_loads E). left. reflexivity.
Defined.


(** An encoder producing 20 bytes on the sample state. *)
Lemma shared_attrs_bytes_within_limit_witness :
  let E := sample_event EventOrigin_local (DState sample_state) in
  StateAttributes_shared_attrs_bytes_from_event (sample_json_bytes 20) (fun _ => ∅) ∅
    E ∅ None = (inr (repeat Byte.x20 20), []) /\
  (length (repeat Byte.x20 20) <= MAX_STATE_ATTRS_BYTES)%nat.
Proof.
  intros E.
  assert (H : StateAttributes_shared_attrs_bytes_from_event (sample_json_bytes 20) (fun _ => ∅) ∅
                E ∅ None = (inr (repeat Byte.x20 20), [])) by reflexivity.
  split; [exact H|].
  exact (shared_attrs_bytes_within_limit (sample_json_bytes 20) (fun _ => ∅) ∅ E ∅ None _ _ H).
Defined.

(** A row written by [States.from_event] inside a run. *)
Lemma recorder_runs_entity_ids_null_last_updated_witness :
  let rows := [sample_states_row "light.x" None None (Some 1) None] in
  Forall (fun r => st_last_updated r = None) rows /\
  RecorderRuns_entity_ids (sample_recorder_run (Some 0) None) (Some rows) None
    = (inr [], []).
Proof.
  intros rows. split; [repeat constructor|].
  apply recorder_runs_entity_ids_null_last_updated. repeat constructor.
Defined.

(** A state updated 5 microseconds into the run, before both points. *)
Lemma recorder_runs_entity_ids_monotone_witness :
  let run := sample_recorder_run (Some sample_time) None in
  let rows := [sample_states_row "light.x" (Some (sample_time + 5)) None None None] in
  sample_time + 10 <= sample_time + 20 /\
  fst (RecorderRuns_entity_ids run (Some rows) (Some (sample_time + 10)))
    = inr [Some (DJson (JStr "light.x"))] /\
  fst (RecorderRuns_entity_ids run (Some rows) (Some (sample_time + 20)))
    = inr [Some (DJson (JStr "light.x"))] /\
  Some (DJson (JStr "light.x")) ∈ [Some (DJson (JStr "light.x"))] /\
  Some (DJson (JStr "light.x")) ∈ [Some (DJson (JStr "light.x"))].
Proof.
  intros run rows.
  assert (H1 : fst (RecorderRuns_entity_ids run (Some rows) (Some (sample_time + 10)))
                 = inr [Some (DJson (JStr "light.x"))]) by reflexivity.
  assert (H2 : fst (RecorderRuns_entity_ids run (Some rows) (Some (sample_time + 20)))
                 = inr [Some (DJson (JStr "light.x"))]) by reflexivity.
  split; [lia|]. split; [exact H1|]. split; [exact H2|].
  split; [constructor|].
  apply (recorder_runs_entity_ids_monotone run rows (sample_time + 10) (sample_time + 20)
           _ _ _ ltac:(lia) H1 H2). constructor.
Defined.

(** A point in time one microsecond before the run's start. *)
Lemma recorder_runs_entity_ids_before_start_witness :
  let run := sample_recorder_run (Some sample_time) None in
  let rows := [sample_states_row "light.x" (Some sample_time) None None None] in
  rr_start run = Some sample_time /\ sample_time - 1 <= sample_time /\
  RecorderRuns_entity_ids run (Some rows) (Some (sample_time - 1)) = (inr [], []).
Proof.
  intros run rows. split; [reflexivity|]. split; [lia|].
  apply (recorder_runs_entity_ids_before_start run rows sample_time); [reflexivity | lia].
Defined.
